(** * Finance-App: record store, monthly aggregation and budget alerts

    A shallow embedding of [Finance-App.py].

    - The three SQLite tables are lists of rows kept in rowid order; each
      database function of the source is a function on the [Store].
    - The [amount] and [monthly_limit] columns are [REAL]; pandas reads them
      as float64.  The arithmetic is taken through the interface [Amount];
      its instance [Binary64] (IEEE 754 double precision, through the
      Standard Library's executable [SpecFloat]) is what the program runs
      on.  A cell of these columns is a number or missing (NULL, read as
      NaN); a text cell, which an uploaded file can put there, is outside
      the model.
    - The sums are the library's: [Series.sum()] is numpy's pairwise
      summation, a grouped [sum()] is pandas' compensated (Kahan) loop.
    - [pd.to_datetime] is a library function: the dashboard takes it as a
      parameter.  [iso_date] reads the [%Y-%m-%d] text that the
      "Add Expense" form writes and instantiates it in the examples. *)

From Stdlib Require Import ZArith Lia Ascii.
From Stdlib Require Import Floats.SpecFloat.
From stdpp Require Import base option list strings sorting.

Local Open Scope Z_scope.

(* ===================================================================== *)
(** * Amounts: the arithmetic the program needs *)
(* ===================================================================== *)

(** What the dashboard asks of the numbers in the [amount] and
    [monthly_limit] columns. [ltb a b] is Python's [b > a]. *)
Class Amount (num : Type) := {
  zero : num;                 (* 0: the empty sum, the [fillna(0)] value *)
  one : num;                  (* the literal [1] of [status > 1] *)
  point8 : num;               (* the literal [0.8] of [status > 0.8] *)
  nan : num;                  (* the missing value (NULL, NaN) *)
  is_nan : num → bool;
  add : num → num → num;
  sub : num → num → num;
  div : num → num → num;
  of_count : nat → num;       (* a row count as a number *)
  ltb : num → num → bool;
  leb : num → num → bool
}.

(** IEEE 754 binary64: 53 bits of precision, exponent bound 1024, round to
    nearest even. This is the arithmetic of SQLite's REAL and of a float64
    column. *)
Module Binary64.
Definition prec : Z := 53.
Definition emax : Z := 1024.

Definition of_Z (z : Z) : spec_float := binary_normalize prec emax z 0 false.

(** The double nearest to the decimal [n / 10^k], as Python reads the
    literal. *)
Definition lit (n : Z) (k : nat) : spec_float :=
  SFdiv prec emax (of_Z n) (of_Z (10 ^ Z.of_nat k)).

Definition isnan (x : spec_float) : bool :=
  match x with S754_nan => true | _ => false end.

#[export] Instance amount : Amount spec_float := {|
  zero := S754_zero false;
  one := S754_finite false 4503599627370496 (-52);
  point8 := S754_finite false 7205759403792794 (-53);
  nan := S754_nan;
  is_nan := isnan;
  add := SFadd prec emax;
  sub := SFsub prec emax;
  div := SFdiv prec emax;
  of_count n := of_Z (Z.of_nat n);
  ltb := SFltb;
  leb := SFleb
|}.
End Binary64.

(* ===================================================================== *)
(** * Calendar dates *)
(* ===================================================================== *)

(** What the dashboard reads of a parsed timestamp: [.dt.date] and
    [.dt.strftime('%Y-%m')] use the calendar date only. *)
Record Date := mkDate { year : Z; month : Z; day : Z }.

#[export] Instance Date_eq_dec : EqDecision Date.
Proof. solve_decision. Defined.

(** [strftime('%Y-%m')]: the year and month a date is filed under. *)
Definition strftime_Ym (d : Date) : Z * Z := (year d, month d).

Definition date_leb (a b : Date) : bool :=
  (year a <? year b)
  || ((year a =? year b)
      && ((month a <? month b)
          || ((month a =? month b) && (day a <=? day b)))).

(** Keys a frame can be grouped by: [groupby] compares keys for equality
    and lists the groups in increasing key order. *)
Class GroupKey (K : Type) := {
  key_eq_dec :: EqDecision K;
  key_leb : K → K → bool
}.

#[export] Instance Date_key : GroupKey Date := {| key_leb := date_leb |}.
#[export] Instance string_key : GroupKey string := {| key_leb := String.leb |}.

(** ** Reading the text the form writes: [date.strftime('%Y-%m-%d')] *)

Definition digit (c : ascii) : option Z :=
  let n := Z.of_N (N_of_ascii c) in
  if (48 <=? n) && (n <=? 57) then Some (n - 48) else None.

Fixpoint number (cs : list ascii) (acc : Z) : option Z :=
  match cs with
  | [] => Some acc
  | c :: cs' => d ← digit c; number cs' (10 * acc + d)
  end.

Definition is_leap (y : Z) : bool :=
  ((y mod 4 =? 0) && negb (y mod 100 =? 0)) || (y mod 400 =? 0).

Definition days_in_month (y m : Z) : Z :=
  if m =? 2 then (if is_leap y then 29 else 28)
  else if (m =? 4) || (m =? 6) || (m =? 9) || (m =? 11) then 30
  else 31.

Definition iso_date (s : string) : option Date :=
  match String.list_ascii_of_string s with
  | [y1; y2; y3; y4; s1; m1; m2; s2; d1; d2] =>
      if Ascii.eqb s1 "-" && Ascii.eqb s2 "-" then
        y ← number [y1; y2; y3; y4] 0;
        m ← number [m1; m2] 0;
        d ← number [d1; d2] 0;
        if (1 <=? y) && (1 <=? m) && (m <=? 12) && (1 <=? d)
           && (d <=? days_in_month y m)
        then Some (mkDate y m d) else None
      else None
  | _ => None
  end.

(* ===================================================================== *)
(** * The record store *)
(* ===================================================================== *)

Section Store.
Context {num : Type}.

(** A row of [expenses (id INTEGER PRIMARY KEY, username, date, category,
    amount, description)]. The category is NULL when the cell of an
    uploaded file was empty; the forms always give a category. *)
Record expense := mkExpense {
  e_id : Z;
  e_username : string;
  e_date : string;
  e_category : option string;   (* [None] is NULL *)
  e_amount : num;
  e_description : string
}.

(** A row of [budget (username, category, monthly_limit,
    PRIMARY KEY(username, category))]. *)
Record budget_row := mkBudget {
  b_username : string;
  b_category : string;
  b_monthly_limit : num
}.

(** The database file: each table as its rows in rowid order. *)
Record Store := mkStore {
  users : list string;
  expenses : list expense;
  budget : list budget_row
}.

(** [init_db]: the three [CREATE TABLE IF NOT EXISTS] make empty tables in
    a fresh file and leave existing tables alone. *)
Definition empty_db : Store := mkStore [] [] [].

Definition init_db (db : option Store) : Store := default empty_db db.

(** [login_user]: [INSERT OR IGNORE INTO users]. *)
Definition login_user (username : string) (s : Store) : Store :=
  if decide (username ∈ users s) then s
  else mkStore (users s ++ [username]) (expenses s) (budget s).

(** The rowid SQLite gives to a row inserted without an id into a table
    whose key is [INTEGER PRIMARY KEY] (no AUTOINCREMENT): 1 in an empty
    table, otherwise one more than the largest rowid in the table. When
    the largest rowid is 2^63-1 the engine leaves this rule and probes
    unused rowids at random; that branch is [None] here. *)
Definition MAX_ROWID : Z := 9223372036854775807.

Definition largest_rowid (r : expense) (rest : list expense) : Z :=
  foldr Z.max (e_id r) (e_id <$> rest).

Definition new_rowid (rows : list expense) : option Z :=
  match rows with
  | [] => Some 1
  | r :: rest =>
      let m := largest_rowid r rest in
      if m <? MAX_ROWID then Some (m + 1) else None
  end.

(** [add_expense]: [INSERT INTO expenses (username, date, category,
    amount, description)]. Nothing is checked; the store picks the id. *)
Definition add_expense (username date : string) (category : option string)
    (amount : num) (description : string) (s : Store) : option Store :=
  i ← new_rowid (expenses s);
  Some (mkStore (users s)
          (expenses s
             ++ [mkExpense i username date category amount description])
          (budget s)).

(** [get_expenses]: [SELECT * FROM expenses WHERE username = ?]. *)
Definition get_expenses (username : string) (s : Store) : list expense :=
  filter (λ r, e_username r = username) (expenses s).

(** [delete_expense]: [DELETE FROM expenses WHERE id = ?]. *)
Definition delete_expense (expense_id : Z) (s : Store) : Store :=
  mkStore (users s)
    (filter (λ r, e_id r ≠ expense_id) (expenses s))
    (budget s).

(** [set_budget]: [INSERT OR REPLACE INTO budget]. A row with the same
    (username, category) is deleted, then the new row is inserted. *)
Definition budget_key (b : budget_row) : string * string :=
  (b_username b, b_category b).

Definition set_budget (username category : string) (limit : num)
    (s : Store) : Store :=
  mkStore (users s) (expenses s)
    (filter (λ b, budget_key b ≠ (username, category)) (budget s)
       ++ [mkBudget username category limit]).

(** [get_budget]: [SELECT * FROM budget WHERE username = ?]. SQLite
    answers the query through the index of the primary key
    (username, category), so the user's rows come back in increasing
    (byte) order of the category, not in the order they were written. *)
Definition category_leb (a b : budget_row) : bool :=
  String.leb (b_category a) (b_category b).

Definition get_budget (username : string) (s : Store) : list budget_row :=
  merge_sort (λ a b, category_leb a b)
    (filter (λ b, b_username b = username) (budget s)).

(** The import page: one [add_expense] per row of the uploaded frame, for
    the user who is logged in. *)
Record csv_row := mkCsv {
  c_date : string;
  c_category : option string;   (* [None] for an empty cell *)
  c_amount : num;
  c_description : string
}.

Fixpoint import_csv (username : string) (rows : list csv_row) (s : Store)
    : option Store :=
  match rows with
  | [] => Some s
  | r :: rows' =>
      s' ← add_expense username (c_date r) (c_category r) (c_amount r)
             (c_description r) s;
      import_csv username rows' s'
  end.

(** ** Sequences of store operations *)

Inductive op :=
| Login (username : string)
| Add (username date : string) (category : option string) (amount : num)
    (description : string)
| Delete (expense_id : Z)
| SetBudget (username category : string) (limit : num).

Definition apply_op (o : op) (s : Store) : option Store :=
  match o with
  | Login u => Some (login_user u s)
  | Add u d c a desc => add_expense u d c a desc s
  | Delete i => Some (delete_expense i s)
  | SetBudget u c l => Some (set_budget u c l s)
  end.

(** Runs the operations in order; also returns the ids the store handed
    out, oldest first. *)
Fixpoint run (ops : list op) (s : Store) (assigned : list Z)
    : option (Store * list Z) :=
  match ops with
  | [] => Some (s, assigned)
  | o :: ops' =>
      s' ← apply_op o s;
      run ops' s'
        (match o with
         | Add _ _ _ _ _ =>
             assigned ++ option_list (new_rowid (expenses s))
         | _ => assigned
         end)
  end.

Definition is_set_budget (o : op) : bool :=
  match o with SetBudget _ _ _ => true | _ => false end.

(** The limit the last [set_budget] of a sequence gave to a key, if any
    did. *)
Fixpoint last_set (k : string * string) (ops : list op) : option num :=
  match ops with
  | [] => None
  | o :: ops' =>
      match last_set k ops' with
      | Some l => Some l
      | None =>
          match o with
          | SetBudget u c l =>
              if decide ((u, c) = k) then Some l else None
          | _ => None
          end
      end
  end.
End Store.

Arguments expense : clear implicits.
Arguments budget_row : clear implicits.
Arguments Store : clear implicits.
Arguments csv_row : clear implicits.
Arguments op : clear implicits.


(* ===================================================================== *)
(** * The pandas operations of the dashboard *)
(* ===================================================================== *)

Section Frames.
Context {num : Type} `{Amount num}.

(** [fillna(0)] on a numeric cell. *)
Definition fillna0 (x : num) : num := if is_nan x then zero else x.

(** Python's [sum(values)]: additions in order from 0, nothing skipped. *)
Definition pysum (l : list num) : num := foldl add zero l.

(** ** [ndarray.sum()]: numpy's pairwise summation

    This is [pairwise_sum] of numpy's add loop on a contiguous column of
    [n] values. Fewer than 8 values are added in row order. Up to 128
    values are added into 8 running sums, taking the values 8 at a time;
    the 8 sums are added as a tree and the values left over (fewer than 8)
    are added in order. A longer column is split near the middle, at a
    multiple of 8, and the sums of the two parts are added.

    The sum of no value is 0. A sum of values starts from a zero (-0.0,
    the neutral element of binary64 addition, in current numpy; +0.0 in
    older releases); here the first value starts it, which is the same
    number unless every value is -0.0, and SQLite stores -0.0 as 0.0. *)

(** [blocks] rounds of [r[j] += a[i + j]] for [j] in 0..7; returns the
    running sums and the values not yet added. *)
Fixpoint unroll8 (blocks : nat) (r a : list num) : list num * list num :=
  match blocks with
  | O => (r, a)
  | S b => unroll8 b (zip_with add r (take 8 a)) (drop 8 a)
  end.

(** [((r0 + r1) + (r2 + r3)) + ((r4 + r5) + (r6 + r7))] *)
Definition tree8 (r : list num) : num :=
  match r with
  | [r0; r1; r2; r3; r4; r5; r6; r7] =>
      add (add (add r0 r1) (add r2 r3)) (add (add r4 r5) (add r6 r7))
  | _ => zero
  end.

(** The recursion halves the column: [fuel] bounds its depth, and the
    length of the column is always enough ([pairwise_sum_fuel]). *)
Fixpoint pairwise_sum (fuel : nat) (a : list num) : num :=
  let n := length a in
  if (n <? 8)%nat then
    match a with
    | [] => zero
    | x :: a' => foldl add x a'
    end
  else if (n <=? 128)%nat then
    let '(r, rest) := unroll8 (n / 8 - 1) (take 8 a) (drop 8 a) in
    foldl add (tree8 r) rest
  else
    match fuel with
    | O => zero
    | S fuel' =>
        let n2 := (n / 2 - (n / 2) mod 8)%nat in
        add (pairwise_sum fuel' (take n2 a)) (pairwise_sum fuel' (drop n2 a))
    end.

Definition np_sum (a : list num) : num := pairwise_sum (length a) a.

(** [Series.sum()]: missing values are replaced by 0, then [ndarray.sum()]. *)
Definition nansum (l : list num) : num := np_sum (fillna0 <$> l).

(** [Series.mean()]: the sum, as [Series.sum()] takes it, over the count
    of values that are not missing; NaN when there is none. (This is
    pandas' own [nanmean]; with the optional bottleneck package pandas
    hands the mean to it.) *)
Definition nanmean (l : list num) : num :=
  match length (filter (λ x, is_nan x = false) l) with
  | O => nan
  | S n => div (nansum l) (of_count (S n))
  end.

(** ** The grouped [sum()]: pandas' [group_sum]

    Each group has a running sum and a compensation term (Kahan
    summation), both 0 at the start. A missing value is skipped; for the
    others
      [y = val - compensation; t = sumx + y;
       compensation = t - sumx - y; sumx = t],
    and a compensation that comes out NaN (an infinite value) is put
    back to 0. A group of missing values only sums to 0. *)
Definition kahan_step (acc : num * num) (val : num) : num * num :=
  if is_nan val then acc
  else
    let '(sumx, compensation) := acc in
    let y := sub val compensation in
    let t := add sumx y in
    let c := sub (sub t sumx) y in
    (t, if is_nan c then zero else c).

Definition group_sum (l : list num) : num :=
  (foldl kahan_step (zero, zero) l).1.

(** The group labels of [groupby(key)]: each key once, in increasing
    order. *)
Definition group_keys {K : Type} `{GroupKey K} (ks : list K) : list K :=
  merge_sort (λ a b, key_leb a b) (remove_dups ks).

(** [frame.groupby(key)[val].sum()]: one entry per group label, holding
    the sum of the group's rows in frame order. A row whose key is
    missing is in no group ([dropna=True]). *)
Definition groupby_sum {K R : Type} `{GroupKey K}
    (key : R → option K) (val : R → num) (rows : list R) : list (K * num) :=
  (λ k, (k, group_sum (val <$> filter (λ r, key r = Some k) rows)))
    <$> group_keys (omap key rows).

(** The entry of a key in a grouped result. *)
Fixpoint assoc {K : Type} `{EqDecision K} (k : K) (l : list (K * num))
    : option num :=
  match l with
  | [] => None
  | (k', v) :: l' => if decide (k' = k) then Some v else assoc k l'
  end.

(** A row of [pd.merge(budget_df, spent_by_cat, on='category',
    how='left').fillna(0)] with its [status] column. *)
Record merged_row := mkMerged {
  m_category : string;
  m_monthly_limit : num;
  m_amount : num
}.

Definition merged (budget_df : list (budget_row num))
    (spent : list (string * num)) : list merged_row :=
  (λ b, mkMerged (b_category b)
          (fillna0 (b_monthly_limit b))
          (from_option fillna0 zero (assoc (b_category b) spent)))
    <$> budget_df.

Definition status (row : merged_row) : num :=
  div (m_amount row) (m_monthly_limit row).

(** The branch the alert loop takes on a row: the "Over budget" warning,
    the "Almost at limit" note, or nothing. *)
Inductive Tier := OK | WARNING | OVER.

Definition tier_of (st : num) : Tier :=
  if ltb one st then OVER
  else if ltb point8 st then WARNING
  else OK.

#[export] Instance Tier_eq_dec : EqDecision Tier.
Proof. solve_decision. Defined.

(** ** The Dashboard page *)

(** A row of the user's frame once the [date] column has been parsed. *)
Definition dated : Type := Date * expense num.

Definition d_date (r : dated) : Date := r.1.
Definition d_category (r : dated) : option string := e_category r.2.
Definition d_amount (r : dated) : num := e_amount r.2.

Section Dashboard.
Variable to_datetime : string → option Date.

(** [expenses["date"] = pd.to_datetime(expenses["date"])]: every cell is
    parsed, one cell that does not parse fails the statement. *)
Definition to_datetime_col (rows : list (expense num)) : option (list dated) :=
  mapM (λ r, d ← to_datetime (e_date r); Some (d, r)) rows.

(** [expenses[expenses['date'].dt.strftime('%Y-%m') == this_month]] *)
Definition month_filter (this_month : Z * Z) (rows : list dated) : list dated :=
  filter (λ r, strftime_Ym (d_date r) = this_month) rows.

(** [month_expenses['amount'].sum()] *)
Definition total_spent (month_expenses : list dated) : num :=
  nansum (d_amount <$> month_expenses).

(** [month_expenses.groupby(month_expenses['date'].dt.date)['amount'].sum()];
    every row of the month's frame has a date. *)
Definition per_day (month_expenses : list dated) : list (Date * num) :=
  groupby_sum (λ r, Some (d_date r)) d_amount month_expenses.

(** [... .sum().mean()] *)
Definition daily_average (month_expenses : list dated) : num :=
  nanmean ((per_day month_expenses).*2).

(** [month_expenses.groupby('category')['amount'].sum().reset_index()] *)
Definition spent_by_cat (month_expenses : list dated)
    : list (string * num) :=
  groupby_sum d_category d_amount month_expenses.

(** The merge and the alert loop: each merged row with its tier. *)
Definition budget_alerts (budget_df : list (budget_row num))
    (month_expenses : list dated) : list (merged_row * Tier) :=
  match budget_df with
  | [] => []
  | _ =>
      (λ row, (row, tier_of (status row)))
        <$> merged budget_df (spent_by_cat month_expenses)
  end.

Record Metrics := mkMetrics {
  total : num;
  daily_avg : num;
  alerts : list (merged_row * Tier)
}.

(** What the page shows: the "No data yet" note, or the two metrics and
    the alerts. *)
Inductive View := NoData | Shown (m : Metrics).

(** A Python call returns or raises. The exception of the page that the
    model follows is the [ValueError] of [pd.to_datetime]; with numeric
    amounts the sums and the formatting of the metrics raise nothing. *)
Inductive exn := ValueError.

Inductive outcome (A : Type) := Returns (a : A) | Raises (e : exn).
Arguments Returns {A} a.
Arguments Raises {A} e.

Definition dashboard (s : Store num) (username : string)
    (this_month : Z * Z) : outcome View :=
  match get_expenses username s with
  | [] => Returns NoData
  | expenses =>
      match to_datetime_col expenses with
      | None => Raises ValueError
      | Some expenses =>
          let month_expenses := month_filter this_month expenses in
          Returns (Shown
            (mkMetrics (total_spent month_expenses)
               (daily_average month_expenses)
               (budget_alerts (get_budget username s) month_expenses)))
      end
  end.

(** [main] up to the Dashboard branch: [init_db()], [login_user(username)],
    then the page. *)
Definition main_dashboard (db : option (Store num)) (username : string)
    (this_month : Z * Z) : Store num * outcome View :=
  let s := login_user username (init_db db) in
  (s, dashboard s username this_month).

End Dashboard.
End Frames.

Arguments merged_row : clear implicits.
Arguments dated : clear implicits.
Arguments Metrics : clear implicits.
Arguments View : clear implicits.
Arguments Returns {A} a.
Arguments Raises {A} e.

(** ** Sample databases *)

Section Sample.
Context {num : Type} `{Amount num}.
Variable amt : Z → nat → num.   (* [amt n k] is the amount [n / 10^k] *)

(** Three expenses of May 2024 entered through the form by "asha", then a
    budget for Food. *)
Definition sample_ops : list (op num) :=
  [ Login "asha";
    Add "asha" "2024-05-01" (Some "Food") (amt 1 1) "tea";
    Add "asha" "2024-05-02" (Some "Transport") (amt 2 1) "bus";
    Add "asha" "2024-05-02" (Some "Transport") (amt 3 1) "bus";
    SetBudget "asha" "Food" (amt 1 1) ].

Definition sample_db : Store num :=
  from_option fst empty_db (run sample_ops empty_db []).

Definition sample_month (this_month : Z * Z) : list (dated num) :=
  month_filter this_month
    (default [] (to_datetime_col iso_date (get_expenses "asha" sample_db))).

(** Three Food expenses of 0.1, 0.2 and 0.3 on three days of May 2024
    against a Food budget of 0.6, entered by "ravi". *)
Definition food_ops : list (op num) :=
  [ Login "ravi";
    Add "ravi" "2024-05-01" (Some "Food") (amt 1 1) "tea";
    Add "ravi" "2024-05-02" (Some "Food") (amt 2 1) "tea";
    Add "ravi" "2024-05-03" (Some "Food") (amt 3 1) "tea";
    SetBudget "ravi" "Food" (amt 6 1) ].

Definition food_db : Store num :=
  from_option fst empty_db (run food_ops empty_db []).

(** The scenario of whole amounts: Food 100 on 1 May, Food 50 on 2 May,
    Transport 20 on 1 May, by "mira". *)
Definition whole_ops : list (op num) :=
  [ Login "mira";
    Add "mira" "2024-05-01" (Some "Food") (amt 100 0) "";
    Add "mira" "2024-05-02" (Some "Food") (amt 50 0) "";
    Add "mira" "2024-05-01" (Some "Transport") (amt 20 0) "" ].

Definition whole_month : list (dated num) :=
  month_filter (2024, 5)
    (default []
       (to_datetime_col iso_date
          (get_expenses "mira"
             (from_option fst empty_db (run whole_ops empty_db []))))).

(** An uploaded file with an empty category cell: 100 for Food and 50
    without a category, both on 1 May 2024, imported by "mira". *)
Definition uploaded_month : list (dated num) :=
  month_filter (2024, 5)
    (default []
       (to_datetime_col iso_date
          (get_expenses "mira"
             (default empty_db
                (import_csv "mira"
                   [mkCsv "2024-05-01" (Some "Food") (amt 100 0) "";
                    mkCsv "2024-05-01" None (amt 50 0) ""]
                   empty_db))))).
End Sample.

(** The sample databases as the program holds them. *)
Definition sample64 : Store spec_float := sample_db Binary64.lit.
Definition food64 : Store spec_float := food_db Binary64.lit.

(** ** Notions the statements use *)

Section Notions.
Context {num : Type}.

(** The ids of the stored expenses, in table order. *)
Definition stored_ids (s : Store num) : list Z := e_id <$> expenses s.

(** The budget rows stored under a (username, category) key. *)
Definition budget_entries (k : string * string) (s : Store num)
    : list (budget_row num) :=
  filter (λ b, budget_key b = k) (budget s).

(** The number of distinct calendar dates in a frame. *)
Definition distinct_days (rows : list (dated num)) : nat :=
  length (remove_dups (d_date <$> rows)).

(** Each id is greater than every id handed out before it. *)
Definition increasing (ids : list Z) : Prop :=
  ∀ i j (a b : Z), (i < j)%nat → ids !! i = Some a → ids !! j = Some b → a < b.
End Notions.

(** The sum of a list of whole numbers. *)
Definition sumZ (l : list Z) : Z := foldr Z.add 0 l.

(** The whole number a double stands for: sign, mantissa and exponent
    read as [± m * 2^e], rounded down when this is no whole number. *)
Definition rupees (x : spec_float) : Z :=
  match x with
  | S754_finite s m e => cond_Zopp s (Z.shiftl (Zpos m) e)
  | _ => 0
  end.

(** A frame of whole amounts that binary64 adds without rounding: each
    amount is the double of a whole number, and the absolute values add
    up to less than 2^53. *)
Definition whole_amounts (rows : list (dated spec_float)) : Prop :=
  Forall (λ r, d_amount r = Binary64.of_Z (rupees (d_amount r))) rows
  ∧ sumZ ((λ r, Z.abs (rupees (d_amount r))) <$> rows) < 2 ^ 53.

(* ===================================================================== *)
(** * The pages of [main] *)
(* ===================================================================== *)

(** The options of the two category select boxes. *)
Inductive Category := Food | Transport | Health | Entertainment | Other.

Definition category_name (c : Category) : string :=
  match c with
  | Food => "Food"
  | Transport => "Transport"
  | Health => "Health"
  | Entertainment => "Entertainment"
  | Other => "Other"
  end.

(** A date the date picker can hold: a calendar date with a four-digit
    year. *)
Definition picker_date (d : Date) : bool :=
  (1000 <=? year d) && (year d <=? 9999)
  && (1 <=? month d) && (month d <=? 12)
  && (1 <=? day d) && (day d <=? days_in_month (year d) (month d)).

(** [date.strftime('%Y-%m-%d')]: year, month and day as decimal digits,
    the month and the day padded to two digits. *)
Definition digit_char (d : Z) : ascii := ascii_of_N (Z.to_N (48 + d)).

Definition pad2 (n : Z) : list ascii :=
  [digit_char (n / 10 mod 10); digit_char (n mod 10)].

Definition pad4 (n : Z) : list ascii :=
  [digit_char (n / 1000 mod 10); digit_char (n / 100 mod 10);
   digit_char (n / 10 mod 10); digit_char (n mod 10)].

Definition strftime_Ymd (d : Date) : string :=
  String.string_of_list_ascii
    (pad4 (year d) ++ "-"%char :: pad2 (month d) ++ "-"%char :: pad2 (day d)).

Section Pages.
Context {num : Type}.

(** What the user did on a run of the script: the entry picked in the
    menu with the values of the page's widgets. [clicked] is the page's
    button, [uploaded] the frame read from the file in the uploader, if
    there is one. *)
Inductive request :=
| Dashboard
| AddExpense (date : Date) (category : Category) (amount : num)
    (desc : string) (clicked : bool)
| Budget (category : Category) (limit : num) (clicked : bool)
| Reports
| ImportExport (uploaded : option (list (csv_row num))).

(** The database after one run of [main]: [init_db()],
    [login_user(username)], then the writes of the page. The Dashboard,
    Reports and export parts only read. *)
Definition main (db : option (Store num)) (username : string)
    (req : request) : option (Store num) :=
  let s := login_user username (init_db db) in
  match req with
  | AddExpense date category amount desc true =>
      add_expense username (strftime_Ymd date)
        (Some (category_name category)) amount desc s
  | Budget category limit true =>
      Some (set_budget username (category_name category) limit s)
  | ImportExport (Some new_df) => import_csv username new_df s
  | _ => Some s
  end.

(** Successive runs of the script on one database file, each with the
    name typed in the sidebar. *)
Fixpoint session (runs : list (string * request)) (db : option (Store num))
    : option (Store num) :=
  match runs with
  | [] => Some (init_db db)
  | (username, req) :: runs' =>
      s ← main db username req; session runs' (Some s)
  end.

(** A run that takes its data from the forms only: nothing is in the
    uploader, and a date comes from the date picker. *)
Definition from_forms (run : string * request) : bool :=
  match run.2 with
  | AddExpense date _ _ _ _ => picker_date date
  | ImportExport (Some _) => false
  | _ => true
  end.

Definition is_delete (o : op num) : bool :=
  match o with Delete _ => true | _ => false end.

(** The three primary keys hold: usernames, expense ids and budget
    (username, category) pairs occur once each. *)
Definition primary_keys (s : Store num) : Prop :=
  NoDup (users s)
  ∧ NoDup (e_id <$> expenses s)
  ∧ NoDup (budget_key <$> budget s).

(** An imported row and the expense stored for it. *)
Definition stored_as (username : string) (r : csv_row num)
    (e : expense num) : Prop :=
  e_username e = username ∧ e_date e = c_date r
  ∧ e_category e = c_category r ∧ e_amount e = c_amount r
  ∧ e_description e = c_description r.
End Pages.

Arguments request : clear implicits.

(* ===================================================================== *)
(** * Group labels *)
(* ===================================================================== *)

Section Groups.
Context {num : Type} `{Amount num}.

Lemma group_keys_perm {K : Type} `{GroupKey K} (ks : list K) :
  group_keys ks ≡ₚ remove_dups ks.
Proof. apply merge_sort_Permutation. Qed.

Lemma group_keys_NoDup {K : Type} `{GroupKey K} (ks : list K) :
  NoDup (group_keys ks).
Proof. rewrite group_keys_perm. apply NoDup_remove_dups. Qed.

Lemma elem_of_group_keys {K : Type} `{GroupKey K} (ks : list K) (k : K) :
  k ∈ group_keys ks ↔ k ∈ ks.
Proof. rewrite group_keys_perm. apply elem_of_remove_dups. Qed.

(** The keys that are not missing. *)
Lemma elem_of_omap_fmap {K R : Type} (key : R → option K) (rows : list R)
    (k : K) :
  k ∈ omap key rows ↔ Some k ∈ key <$> rows.
Proof.
  rewrite list_elem_of_omap, list_elem_of_fmap.
  split; intros (r & ? & ?); by exists r.
Qed.

Lemma groupby_sum_values {K R : Type} `{GroupKey K} (key : R → option K)
    (val : R → num) (rows : list R) :
  (groupby_sum key val rows).*2
  = (λ k, group_sum (val <$> filter (λ r, key r = Some k) rows))
      <$> group_keys (omap key rows).
Proof. unfold groupby_sum. by rewrite <- list_fmap_compose. Qed.

Lemma groupby_sum_length {K R : Type} `{GroupKey K} (key : R → option K)
    (val : R → num) (rows : list R) :
  length (groupby_sum key val rows) = length (remove_dups (omap key rows)).
Proof.
  unfold groupby_sum. rewrite length_fmap. by rewrite group_keys_perm.
Qed.

Lemma assoc_labels {K : Type} `{EqDecision K} (g : K → num) (ks : list K)
    (k : K) :
  assoc k ((λ k', (k', g k')) <$> ks)
  = if decide (k ∈ ks) then Some (g k) else None.
Proof.
  induction ks as [|k' ks IH]; csimpl.
  - destruct (decide (k ∈ [])) as [Hk|]; [by apply elem_of_nil in Hk|done].
  - destruct (decide (k' = k)) as [->|Hne].
    + destruct (decide (k ∈ k :: ks)) as [|Hk]; [done|].
      exfalso. apply Hk. left.
    + rewrite IH. destruct (decide (k ∈ ks)) as [Hk|Hk],
        (decide (k ∈ k' :: ks)) as [Hk'|Hk']; try done.
      * exfalso. apply Hk'. by right.
      * apply elem_of_cons in Hk' as [->|]; done.
Qed.

(** A grouped sum has an entry for a key exactly when a row has the key;
    the entry is the compensated sum of those rows. *)
Lemma assoc_groupby_sum {K R : Type} `{GroupKey K} (key : R → option K)
    (val : R → num) (rows : list R) (k : K) :
  assoc k (groupby_sum key val rows)
  = if decide (Some k ∈ key <$> rows)
    then Some (group_sum (val <$> filter (λ r, key r = Some k) rows))
    else None.
Proof.
  unfold groupby_sum.
  rewrite (assoc_labels
             (λ k, group_sum (val <$> filter (λ r, key r = Some k) rows))).
  destruct (decide (k ∈ group_keys (omap key rows))) as [Hk|Hk],
    (decide (Some k ∈ key <$> rows)) as [Hk'|Hk']; try done;
    rewrite elem_of_group_keys, elem_of_omap_fmap in Hk; done.
Qed.

(** The frame of per-day sums has one row per distinct date. *)
Lemma per_day_length (rows : list (dated num)) :
  length (per_day rows) = distinct_days rows.
Proof.
  unfold per_day, distinct_days.
  rewrite (groupby_sum_length (λ r, Some (d_date r)) d_amount rows).
  by rewrite <- list_fmap_alt.
Qed.

(** The recursion of the pairwise sum never runs out: any bound from the
    length of the column on gives the same sum. *)
Lemma pairwise_sum_fuel (f1 f2 : nat) (a : list num) :
  (length a ≤ f1)%nat → (length a ≤ f2)%nat →
  pairwise_sum f1 a = pairwise_sum f2 a.
Proof.
  revert f2 a. induction f1 as [|f1 IH]; intros f2 a H1 H2.
  - destruct a; [|simpl in H1; lia]. by destruct f2.
  - destruct f2 as [|f2].
    { destruct a; [done|simpl in H2; lia]. }
    cbn [pairwise_sum].
    destruct (length a <? 8)%nat; [done|].
    destruct (Nat.leb_spec (length a) 128); [done|].
    assert (Hhalf : (length a / 2 - (length a / 2) mod 8 ≤ length a / 2)%nat)
      by lia.
    assert (Hdiv : (64 ≤ length a / 2 ∧ 2 * (length a / 2) ≤ length a)%nat).
    { split; [apply (Nat.div_le_lower_bound (length a) 2 64); lia|].
      apply Nat.Div0.mul_div_le. }
    assert (Hmod : ((length a / 2) mod 8 < 8)%nat)
      by (apply Nat.mod_upper_bound; lia).
    f_equal; apply IH; rewrite ?length_take, ?length_drop; lia.
Qed.
End Groups.

(* ===================================================================== *)
(** * Comparisons of doubles and the tiers *)
(* ===================================================================== *)

Import Binary64.

Section Binary64Order.

Lemma CompOpp_cont (p q : positive) :
  Pos.compare_cont Eq q p = CompOpp (Pos.compare_cont Eq p q).
Proof. symmetry. apply (Pos.compare_cont_antisym p q Eq). Qed.

(** Swapping the operands of a comparison mirrors its result. *)
Lemma SFcompare_swap (x y : spec_float) :
  SFcompare y x = CompOpp <$> SFcompare x y.
Proof.
  destruct x as [[]|[]| |[] mx ex], y as [[]|[]| |[] my ey];
    simpl; try done;
    rewrite (Z.compare_antisym ex ey);
    destruct (ex ?= ey)%Z; simpl; try done;
    rewrite (CompOpp_cont mx my); by destruct (Pos.compare_cont Eq mx my).
Qed.

(** A comparison has no result exactly when an operand is NaN. *)
Lemma SFcompare_None (x y : spec_float) :
  SFcompare x y = None → x = S754_nan ∨ y = S754_nan.
Proof.
  destruct x as [[]|[]| |[] mx ex], y as [[]|[]| |[] my ey];
    simpl; intros; try done; (by left) || (by right).
Qed.

(** Among numbers, "not greater than [a]" is "at most [a]". *)
Lemma not_gt_iff_le (r a : spec_float) :
  SFcompare a r ≠ None →
  SFltb a r = false ↔ SFleb r a = true.
Proof.
  unfold SFltb, SFleb. rewrite (SFcompare_swap a r).
  destruct (SFcompare a r) as [[]|]; simpl; intros Hn; split; try done.
Qed.

Lemma SFcompare_Eq_finite (r : spec_float) (s : bool) (m : positive) (e : Z) :
  SFcompare r (S754_finite s m e) = Some Eq → r = S754_finite s m e.
Proof.
  destruct r as [[]|[]| |[] m' e'], s; simpl; try done;
    destruct (e' ?= e)%Z eqn:He; try done;
    destruct (Pos.compare_cont Eq m' m) eqn:Hm; try done;
    apply Z.compare_eq in He; apply Pos.compare_eq in Hm; by subst.
Qed.

(** The only double equal to 1.0 is [one]. *)
Lemma SFeqb_one (r : spec_float) : SFeqb r one = true → r = one.
Proof.
  unfold SFeqb. destruct (SFcompare r one) as [[]|] eqn:E; try done.
  intros _. exact (SFcompare_Eq_finite r false 4503599627370496 (-52) E).
Qed.

(** How the alert loop sorts a status into a tier. *)
Lemma tier_of_spec (ratio : spec_float) :
  (tier_of ratio = OVER ↔ ltb one ratio = true)
  ∧ (tier_of ratio = WARNING
     ↔ ltb point8 ratio = true ∧ leb ratio one = true)
  ∧ (tier_of ratio = OK
     ↔ ltb one ratio = false
       ∧ ¬ (ltb point8 ratio = true ∧ leb ratio one = true))
  ∧ (SFeqb ratio one = true → tier_of ratio = WARNING).
Proof.
  assert (Hle : ltb point8 ratio = true →
                ltb one ratio = false ↔ leb ratio one = true).
  { intros Hp. apply not_gt_iff_le. intros [Hn|Hn]%SFcompare_None.
    - by vm_compute in Hn.
    - subst ratio. by vm_compute in Hp. }
  assert (Hone : SFeqb ratio one = true →
                 ltb one ratio = false ∧ ltb point8 ratio = true).
  { intros ->%SFeqb_one. by vm_compute. }
  unfold tier_of. revert Hle Hone.
  generalize (SFeqb ratio one = true).
  destruct (ltb one ratio), (ltb point8 ratio), (leb ratio one);
    intros P Hle Hone; intuition congruence.
Qed.
(** A status of exactly 0.8 raises no alert. *)
Example tier_at_point8 : tier_of (point8 : spec_float) = OK.
Proof. by vm_compute. Qed.

(** The literals of the alert loop are the doubles Python reads. *)
Example lit_point8 : Binary64.lit 8 1 = point8.
Proof. by vm_compute. Qed.

Example lit_one : Binary64.of_Z 1 = one.
Proof. by vm_compute. Qed.

(** binary64 addition is not associative. *)
Example binary64_add_not_assoc :
  add (add (Binary64.lit 1 1) (Binary64.lit 2 1)) (Binary64.lit 3 1)
  ≠ add (Binary64.lit 1 1) (add (Binary64.lit 2 1) (Binary64.lit 3 1)).
Proof. by vm_compute. Qed.

(** -0.0 is neutral for the addition, also on +0.0 and NaN: a sum that
    starts from -0.0 starts from its first value. *)
Lemma add_neg_zero (x : spec_float) : add (S754_zero true) x = x.
Proof. by destruct x as [[]|[]| |[] m e]. Qed.

(** Eight amounts of 0.1 sum to 0.8 in [Series.sum()], through the tree
    of the pairwise sum; added in row order they give
    0.7999999999999999. *)
Example np_sum_eight_tenths :
  np_sum (replicate 8 (Binary64.lit 1 1)) = Binary64.lit 8 1
  ∧ pysum (replicate 8 (Binary64.lit 1 1))
    = S754_finite false 7205759403792793 (-53).
Proof. split; by vm_compute. Qed.

(** 0.1, 0.2 and 0.3 sum to 0.6 in a grouped sum, where the compensation
    makes up for the rounding of 0.1 + 0.2; added in row order they give
    0.6000000000000001. *)
Example group_sum_compensates :
  group_sum [Binary64.lit 1 1; Binary64.lit 2 1; Binary64.lit 3 1]
  = Binary64.lit 6 1
  ∧ pysum [Binary64.lit 1 1; Binary64.lit 2 1; Binary64.lit 3 1]
    = S754_finite false 5404319552844596 (-53).
Proof. split; by vm_compute. Qed.
End Binary64Order.

(* ===================================================================== *)
(** * The monthly aggregate *)
(* ===================================================================== *)

Section Aggregate.
Context {num : Type} `{Amount num}.

Lemma filter_all {A : Type} (P : A → Prop) `{∀ x, Decision (P x)}
    (l : list A) :
  Forall P l → filter P l = l.
Proof.
  induction 1 as [|x l Hx _ IH]; [done|].
  by rewrite filter_cons_True, IH.
Qed.

Lemma remove_dups_nonempty {A : Type} `{EqDecision A} (l : list A) :
  l ≠ [] → remove_dups l ≠ [].
Proof.
  destruct l as [|x l]; [done|]. intros _ Hnil.
  assert (Hx : x ∈ remove_dups (x :: l)) by (apply elem_of_remove_dups; left).
  rewrite Hnil in Hx. by apply elem_of_nil in Hx.
Qed.

Lemma distinct_days_pos (rows : list (dated num)) :
  rows ≠ [] → ∃ n, distinct_days rows = S n.
Proof.
  intros Hne. unfold distinct_days.
  destruct (remove_dups (d_date <$> rows)) as [|d ds] eqn:E; [|by eexists].
  exfalso. eapply (remove_dups_nonempty (d_date <$> rows)); [|done].
  by destruct rows.
Qed.

(** On an empty frame the total is 0 and the mean of the per-day sums is
    NaN. *)
Lemma empty_frame_metrics :
  total_spent (num:=num) [] = zero ∧ daily_average (num:=num) [] = nan.
Proof. done. Qed.
End Aggregate.

(* ===================================================================== *)
(** * binary64 adds whole numbers below 2^53 exactly *)
(* ===================================================================== *)

Section Binary64Whole.

Lemma iter_xO_value (m d : positive) :
  Zpos (Pos.iter xO m d) = Zpos m * 2 ^ Zpos d.
Proof.
  change (Pos.iter xO m d) with (shift_pos d m).
  rewrite Zpower.shift_pos_correct, Z.pow_pos_fold. lia.
Qed.

Lemma digits2_size (m : positive) : digits2_pos m = Pos.size m.
Proof. induction m; simpl; congruence. Qed.

Lemma digits2_log2 (m : positive) :
  Zpos (digits2_pos m) = Z.log2 (Zpos m) + 1.
Proof.
  rewrite digits2_size.
  destruct m; simpl; try reflexivity; rewrite Pos2Z.inj_succ; lia.
Qed.

Lemma digits2_shift (m m' : positive) (k : Z) :
  0 ≤ k → Zpos m = Zpos m' * 2 ^ k →
  Zpos (digits2_pos m) = Zpos (digits2_pos m') + k.
Proof.
  intros Hk Hm. rewrite !digits2_log2, Hm, Z.log2_mul_pow2 by lia. lia.
Qed.

Lemma iter_pos_nat {A : Type} (f : A → A) (p : positive) (x : A) :
  SpecFloat.iter_pos f p x = Nat.iter (Pos.to_nat p) f x.
Proof.
  revert x. induction p as [p IH|p IH|]; intros x.
  - change (SpecFloat.iter_pos f p~1 x) with (SpecFloat.iter_pos f p (SpecFloat.iter_pos f p (f x))).
    rewrite !IH, Pos2Nat.inj_xI.
    replace (S (2 * Pos.to_nat p))
      with (Pos.to_nat p + (Pos.to_nat p + 1))%nat by lia.
    by rewrite !Nat.iter_add.
  - change (SpecFloat.iter_pos f p~0 x) with (SpecFloat.iter_pos f p (SpecFloat.iter_pos f p x)).
    rewrite !IH, Pos2Nat.inj_xO.
    replace (2 * Pos.to_nat p)%nat
      with (Pos.to_nat p + Pos.to_nat p)%nat by lia.
    by rewrite Nat.iter_add.
  - reflexivity.
Qed.

Lemma shr_1_iter (n : nat) (m : positive) :
  Nat.iter n shr_1 (Build_shr_record (Zpos (Nat.iter n xO m)) false false)
  = Build_shr_record (Zpos m) false false.
Proof.
  induction n as [|n IH]; [reflexivity|].
  rewrite Nat.iter_succ_r. simpl. exact IH.
Qed.

(** Shifting out bits that are all 0 loses nothing. *)
Lemma shr_exact (m m' p : positive) :
  Zpos m = Zpos m' * 2 ^ Zpos p →
  SpecFloat.iter_pos shr_1 p (Build_shr_record (Zpos m) false false)
  = Build_shr_record (Zpos m') false false.
Proof.
  intros Hm. assert (m = Pos.iter xO m' p) as ->.
  { apply Pos2Z.inj. by rewrite iter_xO_value. }
  rewrite iter_pos_nat, Pos2Nat.inj_iter. apply shr_1_iter.
Qed.

Lemma fexp_digits (x : Z) : -1021 ≤ x → fexp 53 1024 x = x - 53.
Proof. unfold fexp, SpecFloat.emin. lia. Qed.

Lemma shr_fexp_canonical (m : positive) (e : Z) :
  Zpos (digits2_pos m) = 53 → -1074 ≤ e →
  shr_fexp 53 1024 (Zpos m) e loc_Exact
  = (Build_shr_record (Zpos m) false false, e).
Proof.
  intros Hd He. unfold shr_fexp. cbn [Zdigits2]. rewrite Hd.
  rewrite fexp_digits by lia.
  replace (53 + e - 53 - e) with 0 by lia. reflexivity.
Qed.

Lemma shr_fexp_shift (m m' p : positive) (e : Z) :
  Zpos m = Zpos m' * 2 ^ Zpos p → Zpos (digits2_pos m') = 53 →
  -1074 ≤ e + Zpos p →
  shr_fexp 53 1024 (Zpos m) e loc_Exact
  = (Build_shr_record (Zpos m') false false, e + Zpos p).
Proof.
  intros Hm Hd He. unfold shr_fexp. cbn [Zdigits2].
  rewrite (digits2_shift m m' (Zpos p)) by (lia || assumption).
  rewrite Hd, fexp_digits by lia.
  replace (53 + Zpos p + e - 53 - e) with (Zpos p) by lia.
  cbn [shr shr_record_of_loc]. by rewrite (shr_exact m m' p Hm).
Qed.

(** A mantissa of 53 bits is not rounded. *)
Lemma round_canonical (b : bool) (m : positive) (e : Z) :
  Zpos (digits2_pos m) = 53 → -1074 ≤ e ≤ 971 →
  binary_round_aux 53 1024 b (Zpos m) e loc_Exact = S754_finite b m e.
Proof.
  intros Hd He. unfold binary_round_aux.
  rewrite shr_fexp_canonical by (lia || assumption).
  cbn [shr_m loc_of_shr_record round_nearest_even].
  rewrite shr_fexp_canonical by (lia || assumption). cbn [shr_m].
  replace (e <=? 1024 - 53) with true by (symmetry; apply Z.leb_le; lia).
  reflexivity.
Qed.

Lemma round_shift (b : bool) (m m' p : positive) (e : Z) :
  Zpos m = Zpos m' * 2 ^ Zpos p → Zpos (digits2_pos m') = 53 →
  -1074 ≤ e + Zpos p ≤ 971 →
  binary_round_aux 53 1024 b (Zpos m) e loc_Exact
  = S754_finite b m' (e + Zpos p).
Proof.
  intros Hm Hd He. unfold binary_round_aux.
  rewrite (shr_fexp_shift m m' p) by (lia || assumption).
  cbn [shr_m loc_of_shr_record round_nearest_even].
  rewrite shr_fexp_canonical by (lia || assumption). cbn [shr_m].
  replace (e + Zpos p <=? 1024 - 53) with true
    by (symmetry; apply Z.leb_le; lia).
  reflexivity.
Qed.

(** The 53-bit mantissa of a whole number [q] of [d] bits is
    [q * 2^(53 - d)]. *)
Lemma mantissa_53 (q : positive) :
  Zpos (digits2_pos q) ≤ 53 →
  ∃ c : positive,
    Zpos c = Zpos q * 2 ^ (53 - Zpos (digits2_pos q))
    ∧ Zpos (digits2_pos c) = 53.
Proof.
  intros Hd.
  assert (Hc : ∃ c : positive,
             Zpos c = Zpos q * 2 ^ (53 - Zpos (digits2_pos q))).
  { destruct (53 - Zpos (digits2_pos q)) as [|d|d] eqn:E; [| |lia].
    - exists q. lia.
    - exists (Pos.iter xO q d). apply iter_xO_value. }
  destruct Hc as [c Hc]. exists c. split; [exact Hc|].
  rewrite (digits2_shift c q (53 - Zpos (digits2_pos q))) by (lia || done).
  lia.
Qed.

(** Rounding [q * 2^k] at exponent [-k], for a whole number [q] of at
    most 53 bits, gives the double of [q]. *)
Lemma binary_round_whole (b : bool) (m q c : positive) (k : Z) :
  0 ≤ k → Zpos m = Zpos q * 2 ^ k → Zpos (digits2_pos q) ≤ 53 →
  Zpos c = Zpos q * 2 ^ (53 - Zpos (digits2_pos q)) →
  Zpos (digits2_pos c) = 53 →
  binary_round 53 1024 b m (- k)
  = S754_finite b c (Zpos (digits2_pos q) - 53).
Proof.
  intros Hk Hm Hd Hc Hcd. unfold binary_round.
  rewrite (digits2_shift m q k) by assumption.
  replace (Zpos (digits2_pos q) + k + - k) with (Zpos (digits2_pos q)) by lia.
  rewrite fexp_digits by lia. unfold shl_align.
  destruct (Zpos (digits2_pos q) - 53 - - k) as [|p|d] eqn:E.
  - assert (m = c) as ->.
    { apply Pos2Z.inj. rewrite Hm, Hc. f_equal. f_equal. lia. }
    replace (- k) with (Zpos (digits2_pos q) - 53) by lia.
    apply round_canonical; [assumption|lia].
  - replace (Zpos (digits2_pos q) - 53) with (- k + Zpos p) by lia.
    apply round_shift; [|assumption|lia].
    rewrite Hm, Hc, <- Z.mul_assoc, <- Z.pow_add_r by lia.
    f_equal. f_equal. lia.
  - assert (Pos.iter xO m d = c) as ->.
    { apply Pos2Z.inj. rewrite iter_xO_value, Hm, Hc, <- Z.mul_assoc,
        <- Z.pow_add_r by lia. f_equal. f_equal. lia. }
    apply round_canonical; [assumption|lia].
Qed.

Lemma digits_le_53 (q : positive) :
  Zpos q < 2 ^ 53 → Zpos (digits2_pos q) ≤ 53.
Proof.
  intros Hq. rewrite digits2_log2.
  assert (Z.log2 (Zpos q) < 53) by (apply Z.log2_lt_pow2; lia). lia.
Qed.

(** Normalising a whole number scaled by a power of two gives the double
    of the whole number. *)
Lemma normalize_whole (n k : Z) :
  0 ≤ k → Z.abs n < 2 ^ 53 →
  binary_normalize 53 1024 (n * 2 ^ k) (- k) false = of_Z n.
Proof.
  intros Hk Hn. unfold of_Z, prec, emax.
  assert (Hpow : 0 < 2 ^ k) by (apply Z.pow_pos_nonneg; lia).
  destruct n as [|q|q]; [reflexivity| |];
    pose proof (digits_le_53 q ltac:(lia)) as Hd;
    destruct (mantissa_53 q Hd) as (c & Hc & Hcd).
  - destruct (Zpos q * 2 ^ k) as [|m|m] eqn:E; try lia.
    cbn [binary_normalize].
    rewrite (binary_round_whole false m q c k) by (lia || done).
    change 0 with (- 0).
    by rewrite (binary_round_whole false q q c 0) by (lia || done).
  - destruct (Zneg q * 2 ^ k) as [|m|m] eqn:E; try lia.
    cbn [binary_normalize].
    rewrite (binary_round_whole true m q c k) by (lia || done).
    change 0 with (- 0).
    by rewrite (binary_round_whole true q q c 0) by (lia || done).
Qed.

(** The double of a whole number below 2^53 holds the number. *)
Lemma of_Z_finite (z : Z) :
  z ≠ 0 → Z.abs z < 2 ^ 53 →
  ∃ s m e, of_Z z = S754_finite s m e ∧ -52 ≤ e ≤ 0
    ∧ cond_Zopp s (Zpos m) = z * 2 ^ (- e).
Proof.
  intros Hz Hb. unfold of_Z, prec, emax. destruct z as [|q|q]; [lia| |];
    pose proof (digits_le_53 q ltac:(lia)) as Hd;
    destruct (mantissa_53 q Hd) as (c & Hc & Hcd);
    cbn [binary_normalize]; change 0 with (- 0).
  - exists false, c, (Zpos (digits2_pos q) - 53).
    rewrite (binary_round_whole false q q c 0) by (lia || done).
    split; [reflexivity|]. split; [lia|].
    cbn [cond_Zopp]. rewrite Hc. f_equal. f_equal. lia.
  - exists true, c, (Zpos (digits2_pos q) - 53).
    rewrite (binary_round_whole true q q c 0) by (lia || done).
    split; [reflexivity|]. split; [lia|].
    cbn [cond_Zopp]. rewrite Hc, <- Z.mul_opp_l. f_equal. f_equal. lia.
Qed.

Lemma of_Z_opp (z : Z) :
  Z.abs z < 2 ^ 53 →
  ∀ s m e, of_Z z = S754_finite s m e → of_Z (- z) = S754_finite (negb s) m e.
Proof.
  intros Hb s m e. unfold of_Z, prec, emax. destruct z as [|q|q]; [done| |];
    pose proof (digits_le_53 q ltac:(lia)) as Hd;
    destruct (mantissa_53 q Hd) as (c & Hc & Hcd);
    [change (- Z.pos q) with (Z.neg q) | change (- Z.neg q) with (Z.pos q)];
    cbn [binary_normalize]; change 0 with (- 0);
    rewrite (binary_round_whole true q q c 0),
      (binary_round_whole false q q c 0) by (lia || done);
    by intros [= <- <- <-].
Qed.

Lemma shl_align_fst (mx : positive) (ex ez : Z) :
  ez ≤ ex → Zpos (shl_align mx ex ez).1 = Zpos mx * 2 ^ (ex - ez).
Proof.
  intros He. unfold shl_align.
  destruct (ez - ex) as [|d|d] eqn:E; cbn [fst].
  - replace (ex - ez) with 0 by lia. lia.
  - lia.
  - change (shift_pos d mx) with (Pos.iter xO mx d).
    rewrite iter_xO_value. f_equal. f_equal. lia.
Qed.

Lemma cond_Zopp_mul (s : bool) (x y : Z) :
  cond_Zopp s (x * y) = cond_Zopp s x * y.
Proof. destruct s; cbn [cond_Zopp]; lia. Qed.

Lemma aligned (s : bool) (m : positive) (e ez z : Z) :
  ez ≤ e → e ≤ 0 → cond_Zopp s (Zpos m) = z * 2 ^ (- e) →
  cond_Zopp s (Zpos (shl_align m e ez).1) = z * 2 ^ (- ez).
Proof.
  intros He He0 Hm.
  rewrite shl_align_fst, cond_Zopp_mul, Hm, <- Z.mul_assoc, <- Z.pow_add_r
    by lia.
  f_equal. f_equal. lia.
Qed.

(** The sum of two whole numbers is exact while it stays below 2^53. *)
Lemma add_whole (a b : Z) :
  Z.abs a < 2 ^ 53 → Z.abs b < 2 ^ 53 → Z.abs (a + b) < 2 ^ 53 →
  add (of_Z a) (of_Z b) = of_Z (a + b).
Proof.
  intros Ha Hb Hab. change (SFadd 53 1024 (of_Z a) (of_Z b) = of_Z (a + b)).
  destruct (Z.eq_dec a 0) as [->|Ha0].
  { rewrite Z.add_0_l. destruct (Z.eq_dec b 0) as [->|Hb0]; [reflexivity|].
    destruct (of_Z_finite b Hb0 Hb) as (s & m & e & -> & _). reflexivity. }
  destruct (of_Z_finite a Ha0 Ha) as (sa & ma & ea & Ea & Hea & Hma).
  destruct (Z.eq_dec b 0) as [->|Hb0].
  { rewrite Z.add_0_r, Ea. reflexivity. }
  destruct (of_Z_finite b Hb0 Hb) as (sb & mb & eb & Eb & Heb & Hmb).
  rewrite Ea, Eb. cbn [SFadd].
  rewrite (aligned sa ma ea (Z.min ea eb) a) by (lia || assumption).
  rewrite (aligned sb mb eb (Z.min ea eb) b) by (lia || assumption).
  rewrite <- Z.mul_add_distr_r.
  pose proof (normalize_whole (a + b) (- Z.min ea eb) ltac:(lia) Hab) as Hn.
  rewrite Z.opp_involutive in Hn. exact Hn.
Qed.

(** So is the difference. *)
Lemma sub_whole (a b : Z) :
  Z.abs a < 2 ^ 53 → Z.abs b < 2 ^ 53 → Z.abs (a - b) < 2 ^ 53 →
  sub (of_Z a) (of_Z b) = of_Z (a - b).
Proof.
  intros Ha Hb Hab. change (SFsub 53 1024 (of_Z a) (of_Z b) = of_Z (a - b)).
  destruct (Z.eq_dec b 0) as [->|Hb0].
  { rewrite Z.sub_0_r. destruct (Z.eq_dec a 0) as [->|Ha0]; [reflexivity|].
    destruct (of_Z_finite a Ha0 Ha) as (s & m & e & -> & _). reflexivity. }
  destruct (of_Z_finite b Hb0 Hb) as (sb & mb & eb & Eb & Heb & Hmb).
  destruct (Z.eq_dec a 0) as [->|Ha0].
  { change (0 - b) with (- b). rewrite (of_Z_opp b Hb _ _ _ Eb), Eb.
    reflexivity. }
  destruct (of_Z_finite a Ha0 Ha) as (sa & ma & ea & Ea & Hea & Hma).
  rewrite Ea, Eb. cbn [SFsub].
  rewrite (aligned sa ma ea (Z.min ea eb) a) by (lia || assumption).
  rewrite (aligned sb mb eb (Z.min ea eb) b) by (lia || assumption).
  rewrite <- Z.mul_sub_distr_r.
  pose proof (normalize_whole (a - b) (- Z.min ea eb) ltac:(lia) Hab) as Hn.
  rewrite Z.opp_involutive in Hn. exact Hn.
Qed.

Lemma of_Z_not_nan (z : Z) : Z.abs z < 2 ^ 53 → is_nan (of_Z z) = false.
Proof.
  intros Hz. destruct (Z.eq_dec z 0) as [->|Hz0]; [reflexivity|].
  by destruct (of_Z_finite z Hz0 Hz) as (s & m & e & -> & _).
Qed.
End Binary64Whole.

(* ===================================================================== *)
(** * The sums of the dashboard on whole amounts *)
(* ===================================================================== *)

Section WholeSums.
Implicit Types (zs rs : list Z).

Lemma sumZ_cons (z : Z) zs : sumZ (z :: zs) = z + sumZ zs.
Proof. reflexivity. Qed.

Lemma sumZ_app zs1 zs2 : sumZ (zs1 ++ zs2) = sumZ zs1 + sumZ zs2.
Proof.
  induction zs1 as [|z zs1 IH]; [done|].
  rewrite <- app_comm_cons, !sumZ_cons, IH. lia.
Qed.

Lemma sumZ_take_drop (n : nat) zs :
  sumZ (take n zs) + sumZ (drop n zs) = sumZ zs.
Proof. by rewrite <- sumZ_app, take_drop. Qed.

Lemma abs_take_drop (n : nat) zs :
  sumZ (Z.abs <$> take n zs) + sumZ (Z.abs <$> drop n zs)
  = sumZ (Z.abs <$> zs).
Proof. by rewrite fmap_take, fmap_drop, sumZ_take_drop. Qed.

Lemma sumZ_abs_nonneg zs : 0 ≤ sumZ (Z.abs <$> zs).
Proof.
  induction zs as [|z zs IH]; [done|]. rewrite fmap_cons, sumZ_cons. lia.
Qed.

Lemma sumZ_abs_le zs : Z.abs (sumZ zs) ≤ sumZ (Z.abs <$> zs).
Proof.
  induction zs as [|z zs IH]; [done|]. rewrite fmap_cons, !sumZ_cons. lia.
Qed.

Lemma abs_le_sumZ (z : Z) zs : z ∈ zs → Z.abs z ≤ sumZ (Z.abs <$> zs).
Proof.
  induction zs as [|z' zs IH]; [by intros ?%elem_of_nil|].
  pose proof (sumZ_abs_nonneg zs). rewrite fmap_cons, sumZ_cons.
  intros [->|Hz%IH]%elem_of_cons; lia.
Qed.

(** No value of a whole column is missing. *)
Lemma whole_no_nan zs :
  sumZ (Z.abs <$> zs) < 2 ^ 53 →
  Forall (λ x : spec_float, is_nan x = false) (of_Z <$> zs).
Proof.
  intros Hb. apply Forall_fmap, Forall_forall. intros z Hz. simpl.
  apply of_Z_not_nan. pose proof (abs_le_sumZ z zs Hz). lia.
Qed.

Lemma fillna0_whole zs :
  sumZ (Z.abs <$> zs) < 2 ^ 53 → fillna0 <$> (of_Z <$> zs) = of_Z <$> zs.
Proof.
  intros Hb. rewrite <- (list_fmap_id (of_Z <$> zs)) at 2.
  apply Forall_fmap_ext. eapply Forall_impl; [by apply whole_no_nan|].
  intros x Hx. cbv beta in Hx. unfold fillna0. by rewrite Hx.
Qed.

(** Additions in row order. *)
Lemma foldl_add_whole (a : Z) zs :
  Z.abs a + sumZ (Z.abs <$> zs) < 2 ^ 53 →
  foldl add (of_Z a) (of_Z <$> zs) = of_Z (a + sumZ zs).
Proof.
  revert a. induction zs as [|z zs IH]; intros a Hb.
  - simpl. f_equal. change (sumZ []) with 0. lia.
  - pose proof (sumZ_abs_nonneg zs).
    rewrite fmap_cons, sumZ_cons in Hb. rewrite fmap_cons, sumZ_cons.
    cbn [foldl]. rewrite add_whole by lia. rewrite IH by lia. f_equal. lia.
Qed.

Lemma pysum_whole zs :
  sumZ (Z.abs <$> zs) < 2 ^ 53 → pysum (of_Z <$> zs) = of_Z (sumZ zs).
Proof. intros Hb. apply (foldl_add_whole 0). lia. Qed.

(** The eight running sums. *)
Lemma zip_with_add_whole rs zs :
  sumZ (Z.abs <$> rs) + sumZ (Z.abs <$> zs) < 2 ^ 53 →
  zip_with add (of_Z <$> rs) (of_Z <$> zs) = of_Z <$> zip_with Z.add rs zs.
Proof.
  revert zs. induction rs as [|r rs IH]; intros [|z zs] Hb; try done.
  pose proof (sumZ_abs_nonneg rs). pose proof (sumZ_abs_nonneg zs).
  rewrite !fmap_cons, !sumZ_cons in Hb. rewrite !fmap_cons.
  cbn [zip_with]. rewrite fmap_cons, add_whole by lia. by rewrite IH by lia.
Qed.

Lemma sumZ_zip_with rs zs :
  length rs = length zs →
  sumZ (zip_with Z.add rs zs) = sumZ rs + sumZ zs.
Proof.
  revert zs. induction rs as [|r rs IH]; intros [|z zs] Hl; try done.
  injection Hl as Hl. cbn [zip_with]. rewrite !sumZ_cons, IH by done. lia.
Qed.

Lemma abs_zip_with rs zs :
  sumZ (Z.abs <$> zip_with Z.add rs zs)
  ≤ sumZ (Z.abs <$> rs) + sumZ (Z.abs <$> zs).
Proof.
  revert zs. induction rs as [|r rs IH]; intros zs.
  - apply (sumZ_abs_nonneg zs).
  - pose proof (sumZ_abs_nonneg (r :: rs)). destruct zs as [|z zs].
    + change (zip_with Z.add (r :: rs) []) with (@nil Z).
      change (sumZ (Z.abs <$> [])) with 0. lia.
    + specialize (IH zs). cbn [zip_with].
      rewrite !fmap_cons, !sumZ_cons. lia.
Qed.

Lemma unroll8_whole (b : nat) rs zs :
  length rs = 8%nat → (8 * b ≤ length zs)%nat →
  sumZ (Z.abs <$> rs) + sumZ (Z.abs <$> zs) < 2 ^ 53 →
  ∃ rs' zs',
    unroll8 b (of_Z <$> rs) (of_Z <$> zs) = (of_Z <$> rs', of_Z <$> zs')
    ∧ length rs' = 8%nat
    ∧ sumZ rs' + sumZ zs' = sumZ rs + sumZ zs
    ∧ sumZ (Z.abs <$> rs') + sumZ (Z.abs <$> zs')
      ≤ sumZ (Z.abs <$> rs) + sumZ (Z.abs <$> zs).
Proof.
  revert rs zs. induction b as [|b IH]; intros rs zs Hr Hl Hb.
  - exists rs, zs. by repeat split.
  - cbn [unroll8]. rewrite <- fmap_take, <- fmap_drop.
    pose proof (abs_take_drop 8 zs) as Habs.
    pose proof (sumZ_take_drop 8 zs) as Hsum.
    pose proof (abs_zip_with rs (take 8 zs)) as Hzip.
    pose proof (sumZ_abs_nonneg (drop 8 zs)).
    pose proof (sumZ_abs_nonneg (take 8 zs)).
    assert (Hlt : length (take 8 zs) = 8%nat) by (rewrite length_take; lia).
    rewrite zip_with_add_whole by lia.
    destruct (IH (zip_with Z.add rs (take 8 zs)) (drop 8 zs))
      as (rs' & zs' & Hu & Hr' & Hs' & Ha').
    + rewrite length_zip_with. lia.
    + rewrite length_drop. lia.
    + lia.
    + exists rs', zs'. split; [exact Hu|]. split; [exact Hr'|].
      rewrite (sumZ_zip_with rs (take 8 zs)) in Hs' by lia. lia.
Qed.

Lemma tree8_whole rs :
  length rs = 8%nat → sumZ (Z.abs <$> rs) < 2 ^ 53 →
  tree8 (of_Z <$> rs) = of_Z (sumZ rs).
Proof.
  intros Hl Hb.
  destruct rs as [|r0 [|r1 [|r2 [|r3 [|r4 [|r5 [|r6 [|r7 [|]]]]]]]]];
    try done.
  rewrite !fmap_cons, !sumZ_cons in Hb. change (sumZ (Z.abs <$> [])) with 0 in Hb.
  rewrite !fmap_cons, !sumZ_cons. change (sumZ []) with 0.
  change (of_Z <$> []) with (@nil spec_float). cbn [tree8].
  rewrite !add_whole by lia. f_equal. lia.
Qed.

(** A column of fewer than 8 values. *)
Lemma pairwise_sum_short (fuel : nat) zs :
  (length zs < 8)%nat → sumZ (Z.abs <$> zs) < 2 ^ 53 →
  pairwise_sum fuel (of_Z <$> zs) = of_Z (sumZ zs).
Proof.
  intros Hn Hb.
  assert (Hp : pairwise_sum fuel (of_Z <$> zs)
               = match of_Z <$> zs with
                 | [] => zero
                 | x :: a' => foldl add x a'
                 end).
  { destruct fuel; cbn [pairwise_sum]; rewrite length_fmap;
      by destruct (Nat.ltb_spec (length zs) 8); [|lia]. }
  rewrite Hp. destruct zs as [|z zs]; [done|].
  rewrite fmap_cons, sumZ_cons in Hb. rewrite fmap_cons, sumZ_cons.
  by apply foldl_add_whole.
Qed.

(** A column of 8 to 128 values. *)
Lemma pairwise_sum_block (fuel : nat) zs :
  (8 ≤ length zs ≤ 128)%nat → sumZ (Z.abs <$> zs) < 2 ^ 53 →
  pairwise_sum fuel (of_Z <$> zs) = of_Z (sumZ zs).
Proof.
  intros Hn Hb.
  assert (Hp : pairwise_sum fuel (of_Z <$> zs)
               = let '(r, rest) :=
                   unroll8 (length zs / 8 - 1) (take 8 (of_Z <$> zs))
                     (drop 8 (of_Z <$> zs)) in
                 foldl add (tree8 r) rest).
  { destruct fuel; cbn [pairwise_sum]; rewrite length_fmap;
      (destruct (Nat.ltb_spec (length zs) 8); [lia|]);
      by destruct (Nat.leb_spec (length zs) 128); [|lia]. }
  rewrite Hp, <- fmap_take, <- fmap_drop.
  pose proof (abs_take_drop 8 zs). pose proof (sumZ_take_drop 8 zs).
  destruct (unroll8_whole (length zs / 8 - 1) (take 8 zs) (drop 8 zs))
    as (rs' & zs' & -> & Hr' & Hs' & Ha').
  - rewrite length_take. lia.
  - rewrite length_drop. pose proof (Nat.Div0.mul_div_le (length zs) 8). lia.
  - lia.
  - pose proof (sumZ_abs_nonneg zs'). pose proof (sumZ_abs_nonneg rs').
    pose proof (sumZ_abs_le rs').
    rewrite tree8_whole by lia. rewrite foldl_add_whole by lia. f_equal. lia.
Qed.

(** numpy's pairwise sum of a whole column is the double of its sum. *)
Lemma pairwise_sum_whole (fuel : nat) zs :
  (length zs ≤ fuel)%nat → sumZ (Z.abs <$> zs) < 2 ^ 53 →
  pairwise_sum fuel (of_Z <$> zs) = of_Z (sumZ zs).
Proof.
  revert zs. induction fuel as [|fuel IH]; intros zs Hf Hb.
  { apply pairwise_sum_short; [lia|done]. }
  destruct (Nat.ltb_spec (length zs) 8) as [H8|H8];
    [by apply pairwise_sum_short|].
  destruct (Nat.leb_spec (length zs) 128) as [Hn|Hn];
    [by apply pairwise_sum_block|].
  cbn [pairwise_sum]. rewrite length_fmap.
  destruct (Nat.ltb_spec (length zs) 8); [lia|].
  destruct (Nat.leb_spec (length zs) 128); [lia|].
  set (n2 := (length zs / 2 - (length zs / 2) mod 8)%nat).
  assert (Hdiv : (64 ≤ length zs / 2 ∧ 2 * (length zs / 2) ≤ length zs)%nat).
  { split; [apply (Nat.div_le_lower_bound (length zs) 2 64); lia|].
    apply Nat.Div0.mul_div_le. }
  assert (Hmod : ((length zs / 2) mod 8 < 8)%nat)
    by (apply Nat.mod_upper_bound; lia).
  rewrite <- fmap_take, <- fmap_drop.
  pose proof (abs_take_drop n2 zs). pose proof (sumZ_take_drop n2 zs).
  pose proof (sumZ_abs_nonneg (take n2 zs)).
  pose proof (sumZ_abs_nonneg (drop n2 zs)).
  pose proof (sumZ_abs_le (take n2 zs)).
  pose proof (sumZ_abs_le (drop n2 zs)).
  rewrite !IH by (rewrite ?length_take, ?length_drop; lia).
  rewrite add_whole by lia. f_equal. lia.
Qed.

Lemma nansum_whole zs :
  sumZ (Z.abs <$> zs) < 2 ^ 53 → nansum (of_Z <$> zs) = of_Z (sumZ zs).
Proof.
  intros Hb. unfold nansum, np_sum. rewrite fillna0_whole by done.
  apply pairwise_sum_whole; [by rewrite length_fmap|done].
Qed.

(** The compensation of the grouped sum stays 0 on whole amounts. *)
Lemma kahan_whole (a : Z) zs :
  Z.abs a + sumZ (Z.abs <$> zs) < 2 ^ 53 →
  foldl kahan_step (of_Z a, of_Z 0) (of_Z <$> zs)
  = (of_Z (a + sumZ zs), of_Z 0).
Proof.
  revert a. induction zs as [|z zs IH]; intros a Hb.
  - simpl. do 2 f_equal. change (sumZ []) with 0. lia.
  - pose proof (sumZ_abs_nonneg zs).
    rewrite fmap_cons, sumZ_cons in Hb. rewrite fmap_cons, sumZ_cons.
    cbn [foldl]. unfold kahan_step at 2. rewrite of_Z_not_nan by lia.
    rewrite (sub_whole z 0) by lia. rewrite Z.sub_0_r.
    rewrite (add_whole a z) by lia.
    rewrite (sub_whole (a + z) a) by lia.
    rewrite (sub_whole (a + z - a) z) by lia.
    replace (a + z - a - z) with 0 by lia.
    rewrite (of_Z_not_nan 0) by lia.
    rewrite IH by lia. do 2 f_equal. lia.
Qed.

Lemma group_sum_whole zs :
  sumZ (Z.abs <$> zs) < 2 ^ 53 → group_sum (of_Z <$> zs) = of_Z (sumZ zs).
Proof.
  intros Hb. unfold group_sum.
  change (@zero spec_float _, @zero spec_float _) with (of_Z 0, of_Z 0).
  rewrite kahan_whole by lia. done.
Qed.

(** ** Groups of whole numbers *)

(** Adding [v] to the entry of one label adds [v] to the sum over the
    labels. *)
Lemma sumZ_bump {K : Type} `{EqDecision K} (g : K → Z) (v : Z) (k0 : K)
    (ks : list K) :
  NoDup ks → k0 ∈ ks →
  sumZ ((λ k, if decide (k0 = k) then v + g k else g k) <$> ks)
  = v + sumZ (g <$> ks).
Proof.
  induction ks as [|k ks IH]; intros Hnd Hin.
  - by apply elem_of_nil in Hin.
  - apply NoDup_cons in Hnd as [Hk Hnd].
    rewrite !fmap_cons, !sumZ_cons.
    destruct (decide (k0 = k)) as [->|Hne].
    + rewrite <- Z.add_assoc. f_equal. f_equal. f_equal.
      apply list_fmap_ext. intros _ k' Hk'%list_elem_of_lookup_2.
      destruct (decide (k = k')) as [->|]; [done|done].
    + apply elem_of_cons in Hin as [?|Hin]; [done|].
      rewrite IH by done. lia.
Qed.

Lemma sumZ_zeros {K : Type} (ks : list K) : sumZ ((λ _, 0) <$> ks) = 0.
Proof.
  induction ks as [|k ks IH]; [done|]. by rewrite fmap_cons, sumZ_cons, IH.
Qed.

(** The per-label sums of a frame add up to the sum of the frame, for any
    list of labels that names the key of each row once; no row may lack
    a key. *)
Lemma group_sums_total {K R : Type} `{EqDecision K} (key : R → option K)
    (f : R → Z) (ks : list K) (rows : list R) :
  NoDup ks → (∀ r, r ∈ rows → ∃ k, key r = Some k ∧ k ∈ ks) →
  sumZ ((λ k, sumZ (f <$> filter (λ r, key r = Some k) rows)) <$> ks)
  = sumZ (f <$> rows).
Proof.
  intros Hnd. induction rows as [|r rows IH]; intros Hall.
  - apply (sumZ_zeros ks).
  - destruct (Hall r ltac:(left)) as (k0 & Hk0 & Hin).
    rewrite fmap_cons, sumZ_cons.
    rewrite <- IH by (intros r' ?; apply Hall; by right).
    rewrite <- (sumZ_bump _ (f r) k0) by done.
    f_equal. apply list_fmap_ext. intros _ k _.
    rewrite filter_cons.
    destruct (decide (k0 = k)) as [->|Hne].
    + rewrite decide_True by done. by rewrite fmap_cons, sumZ_cons.
    + rewrite decide_False; [done|]. rewrite Hk0. by intros [= ->].
Qed.

Lemma filter_abs_le {R : Type} (f : R → Z) (P : R → Prop)
    `{∀ r, Decision (P r)} (rows : list R) :
  sumZ (Z.abs <$> (f <$> filter P rows)) ≤ sumZ (Z.abs <$> (f <$> rows)).
Proof.
  induction rows as [|r rows IH]; [done|].
  rewrite filter_cons. destruct (decide (P r));
    rewrite !fmap_cons, !sumZ_cons; lia.
Qed.

Lemma sumZ_abs_pointwise {K : Type} (g h : K → Z) (ks : list K) :
  (∀ k, Z.abs (g k) ≤ h k) →
  sumZ (Z.abs <$> (g <$> ks)) ≤ sumZ (h <$> ks).
Proof.
  intros Hgh. induction ks as [|k ks IH]; [done|].
  rewrite !fmap_cons, !sumZ_cons. specialize (Hgh k). lia.
Qed.
End WholeSums.

(* ===================================================================== *)
(** * The monthly aggregate on whole amounts *)
(* ===================================================================== *)

Section WholeAggregate.
Implicit Types (rows : list (dated spec_float)).

(** The whole numbers behind the amounts of a frame. *)
Lemma whole_column rows :
  Forall (λ r, d_amount r = of_Z (rupees (d_amount r))) rows →
  d_amount <$> rows = of_Z <$> ((λ r, rupees (d_amount r)) <$> rows).
Proof.
  intros Hw. rewrite <- list_fmap_compose. apply Forall_fmap_ext.
  eapply Forall_impl; [exact Hw|]. by intros r ->.
Qed.

Lemma whole_amounts_filter rows (P : dated spec_float → Prop)
    `{∀ r, Decision (P r)} :
  whole_amounts rows → whole_amounts (filter P rows).
Proof.
  intros [Hw Hb]. split.
  - apply Forall_forall. intros r [_ Hr]%list_elem_of_filter.
    rewrite Forall_forall in Hw. by apply Hw.
  - pose proof (filter_abs_le (λ r, rupees (d_amount r)) P rows) as Hle.
    rewrite <- !list_fmap_compose in Hle. unfold compose in Hle. lia.
Qed.

Lemma whole_abs rows :
  sumZ (Z.abs <$> ((λ r, rupees (d_amount r)) <$> rows))
  = sumZ ((λ r, Z.abs (rupees (d_amount r))) <$> rows).
Proof. by rewrite <- list_fmap_compose. Qed.

(** The month's total is the double of the sum of the amounts. *)
Lemma total_spent_whole rows :
  whole_amounts rows →
  total_spent rows = of_Z (sumZ ((λ r, rupees (d_amount r)) <$> rows)).
Proof.
  intros [Hw Hb]. unfold total_spent. rewrite (whole_column rows Hw).
  apply nansum_whole. by rewrite whole_abs.
Qed.

(** So is the sum of each group. *)
Lemma group_whole rows (P : dated spec_float → Prop) `{∀ r, Decision (P r)} :
  whole_amounts rows →
  group_sum (d_amount <$> filter P rows)
  = of_Z (sumZ ((λ r, rupees (d_amount r)) <$> filter P rows)).
Proof.
  intros [Hw Hb]%(whole_amounts_filter rows P).
  rewrite (whole_column _ Hw). apply group_sum_whole. by rewrite whole_abs.
Qed.

(** The sums of the groups of a frame, as whole numbers. *)
Lemma groupby_sum_whole {K : Type} `{GroupKey K}
    (key : dated spec_float → option K) rows :
  whole_amounts rows →
  (groupby_sum key d_amount rows).*2
  = of_Z <$> ((λ k, sumZ ((λ r, rupees (d_amount r))
                            <$> filter (λ r, key r = Some k) rows))
                <$> group_keys (omap key rows)).
Proof.
  intros Hw. rewrite groupby_sum_values, <- list_fmap_compose.
  apply list_fmap_ext. intros _ k _. simpl. by apply group_whole.
Qed.

(** The absolute values of the group sums add up to no more than those
    of the amounts. *)
Lemma groupby_abs_le {K : Type} `{GroupKey K}
    (key : dated spec_float → option K) rows :
  (∀ r, r ∈ rows → is_Some (key r)) →
  sumZ (Z.abs <$> ((λ k, sumZ ((λ r, rupees (d_amount r))
                                 <$> filter (λ r, key r = Some k) rows))
                     <$> group_keys (omap key rows)))
  ≤ sumZ ((λ r, Z.abs (rupees (d_amount r))) <$> rows).
Proof.
  intros Hkey.
  rewrite <- (group_sums_total key (λ r, Z.abs (rupees (d_amount r)))
                (group_keys (omap key rows)) rows).
  - apply sumZ_abs_pointwise. intros k.
    etransitivity; [apply sumZ_abs_le|]. by rewrite <- list_fmap_compose.
  - apply group_keys_NoDup.
  - intros r Hr. destruct (Hkey r Hr) as [k Hk]. exists k. split; [done|].
    apply elem_of_group_keys, list_elem_of_omap. by exists r.
Qed.

(** When every row has a key, the sums of the groups add up to the sum
    of the frame. *)
Lemma groupby_total {K : Type} `{GroupKey K}
    (key : dated spec_float → option K) rows :
  (∀ r, r ∈ rows → is_Some (key r)) →
  sumZ ((λ k, sumZ ((λ r, rupees (d_amount r))
                      <$> filter (λ r, key r = Some k) rows))
          <$> group_keys (omap key rows))
  = sumZ ((λ r, rupees (d_amount r)) <$> rows).
Proof.
  intros Hkey. apply group_sums_total; [apply group_keys_NoDup|].
  intros r Hr. destruct (Hkey r Hr) as [k Hk]. exists k. split; [done|].
  apply elem_of_group_keys, list_elem_of_omap. by exists r.
Qed.
End WholeAggregate.

(* ===================================================================== *)
(** * Claims about the dashboard *)
(* ===================================================================== *)

(** C1. Budget tiers. On the program's binary64 numbers, the alert loop
    takes the budget limits of the user one by one, in the order
    [get_budget] returns them. For each limit [b] its row has [b]'s
    category; the spent amount is the (compensated) sum of the month's
    expenses in that category, or 0 when the category has no expense in
    the month; the ratio is spent / limit (both after [fillna(0)]); and
    the tier is OVER iff ratio > 1, WARNING iff 0.8 < ratio <= 1, OK
    otherwise. A ratio equal to 1.0 is WARNING. *)
Theorem budget_tier_classification (to_datetime : string → option Date)
    (s : Store spec_float) (username : string) (this_month : Z * Z)
    (m : Metrics spec_float) :
  dashboard to_datetime s username this_month = Returns (Shown m) →
  ∃ frame,
    to_datetime_col to_datetime (get_expenses username s) = Some frame
    ∧ Forall2
        (λ (b : budget_row spec_float) (alert : merged_row spec_float * Tier),
           let row := alert.1 in
           let t := alert.2 in
           let month_expenses := month_filter this_month frame in
           let ratio := div (m_amount row) (m_monthly_limit row) in
           m_category row = b_category b
           ∧ m_amount row
             = (if decide (Some (b_category b) ∈ d_category <$> month_expenses)
                then fillna0 (group_sum (d_amount <$>
                       filter (λ r, d_category r = Some (b_category b))
                         month_expenses))
                else zero)
           ∧ m_monthly_limit row = fillna0 (b_monthly_limit b)
           ∧ (t = OVER ↔ ltb one ratio = true)
           ∧ (t = WARNING ↔ ltb point8 ratio = true ∧ leb ratio one = true)
           ∧ (t = OK
              ↔ ltb one ratio = false
                ∧ ¬ (ltb point8 ratio = true ∧ leb ratio one = true))
           ∧ (SFeqb ratio one = true → t = WARNING))
        (get_budget username s) (alerts m).
Proof.
  unfold dashboard. intros Hd.
  destruct (get_expenses username s) as [|e es] eqn:He; [done|].
  destruct (to_datetime_col to_datetime (e :: es)) as [frame|] eqn:Hf;
    [|done].
  injection Hd as <-. exists frame. split; [done|].
  cbn [alerts].
  assert (Hal : budget_alerts (get_budget username s)
                  (month_filter this_month frame)
                = (λ row, (row, tier_of (status row)))
                    <$> merged (get_budget username s)
                          (spent_by_cat (month_filter this_month frame))).
  { unfold budget_alerts. by destruct (get_budget username s). }
  rewrite Hal. unfold merged.
  apply Forall2_fmap_r, Forall2_fmap_r, Forall_Forall2_diag, Forall_forall.
  intros b _. cbn [compose fst snd m_category m_amount m_monthly_limit].
  split; [done|]. split; [|split; [done|apply tier_of_spec]].
  unfold spent_by_cat.
  etransitivity;
    [apply (f_equal (from_option fillna0 zero));
     exact (assoc_groupby_sum d_category d_amount _ _)|].
  repeat case_decide; done.
Qed.

Lemma budget_tier_classification_witness :
  let row := mkMerged "Food" (Binary64.lit 6 1) (Binary64.lit 6 1) in
  ∃ m,
    dashboard iso_date food64 "ravi" (2024, 5) = Returns (Shown m)
    ∧ alerts m = [(row, WARNING)]
    ∧ SFeqb (status row) one = true
    ∧ ∃ frame,
        to_datetime_col iso_date (get_expenses "ravi" food64) = Some frame
        ∧ Forall2
            (λ (b : budget_row spec_float)
               (alert : merged_row spec_float * Tier),
               let row := alert.1 in
               let t := alert.2 in
               let month_expenses := month_filter (2024, 5) frame in
               let ratio := div (m_amount row) (m_monthly_limit row) in
               m_category row = b_category b
               ∧ m_amount row
                 = (if decide (Some (b_category b)
                               ∈ d_category <$> month_expenses)
                    then fillna0 (group_sum (d_amount <$>
                           filter (λ r, d_category r = Some (b_category b))
                             month_expenses))
                    else zero)
               ∧ m_monthly_limit row = fillna0 (b_monthly_limit b)
               ∧ (t = OVER ↔ ltb one ratio = true)
               ∧ (t = WARNING
                  ↔ ltb point8 ratio = true ∧ leb ratio one = true)
               ∧ (t = OK
                  ↔ ltb one ratio = false
                    ∧ ¬ (ltb point8 ratio = true ∧ leb ratio one = true))
               ∧ (SFeqb ratio one = true → t = WARNING))
            (get_budget "ravi" food64) (alerts m).
Proof.
  intros row. eexists.
  split; [vm_compute; reflexivity|].
  split; [vm_compute; reflexivity|].
  split; [vm_compute; reflexivity|].
  apply (budget_tier_classification iso_date food64 "ravi" (2024, 5)).
  vm_compute; reflexivity.
Defined.

(** C2, as the spec states it, fails: when no expense of the user falls in
    the month, the page returns the total 0 and the daily average NaN; no
    error is raised. Here "asha" has expenses in May 2024 only and the
    page is drawn for June 2024. *)
Lemma empty_month_raises_nothing :
  month_filter (2024, 6)
    (default [] (to_datetime_col iso_date (get_expenses "asha" sample64)))
  = []
  ∧ dashboard iso_date sample64 "asha" (2024, 6)
    = Returns (Shown (mkMetrics (S754_zero false) S754_nan
         [(mkMerged "Food" (Binary64.lit 1 1) (S754_zero false), OK)]))
  ∧ ¬ ∃ e, dashboard iso_date sample64 "asha" (2024, 6) = Raises e.
Proof.
  split; [vm_compute; reflexivity|].
  assert (Hd : dashboard iso_date sample64 "asha" (2024, 6)
    = Returns (Shown (mkMetrics (S754_zero false) S754_nan
         [(mkMerged "Food" (Binary64.lit 1 1) (S754_zero false), OK)])))
    by (vm_compute; reflexivity).
  split; [exact Hd|]. intros [e He]. rewrite Hd in He. discriminate He.
Qed.

(** C2, amended. When the user has expenses, their dates parse and none
    falls in the month, the page returns: the total is 0 and the daily
    average is NaN. *)
Theorem empty_month_total_zero_average_nan {num : Type} `{Amount num}
    (to_datetime : string → option Date) (s : Store num)
    (username : string) (this_month : Z * Z) (frame : list (dated num)) :
  get_expenses username s ≠ [] →
  to_datetime_col to_datetime (get_expenses username s) = Some frame →
  month_filter this_month frame = [] →
  total_spent (month_filter this_month frame) = zero
  ∧ daily_average (month_filter this_month frame) = nan
  ∧ ∃ al, dashboard to_datetime s username this_month
          = Returns (Shown (mkMetrics zero nan al)).
Proof.
  intros Hne Hf Hm. rewrite Hm.
  destruct (empty_frame_metrics (num:=num)) as [Ht Ha].
  split; [exact Ht|]. split; [exact Ha|].
  unfold dashboard. destruct (get_expenses username s) as [|e es]; [done|].
  rewrite Hf, Hm. by eexists.
Qed.

Lemma empty_month_total_zero_average_nan_witness :
  let frame :=
    default [] (to_datetime_col iso_date (get_expenses "asha" sample64)) in
  get_expenses "asha" sample64 ≠ []
  ∧ total_spent (month_filter (2024, 6) frame) = S754_zero false
  ∧ daily_average (month_filter (2024, 6) frame) = S754_nan
  ∧ ∃ al, dashboard iso_date sample64 "asha" (2024, 6)
          = Returns (Shown (mkMetrics (S754_zero false) S754_nan al)).
Proof.
  intros frame.
  assert (Hne : get_expenses "asha" sample64 ≠ [])
    by (vm_compute; discriminate).
  split; [exact Hne|].
  exact (empty_month_total_zero_average_nan iso_date sample64 "asha"
           (2024, 6) frame Hne
           ltac:(vm_compute; reflexivity) ltac:(vm_compute; reflexivity)).
Defined.

(** C3, as the spec states it, fails on binary64: for 0.1 on 1 May and
    0.2 + 0.3 on 2 May the mean of the per-day sums is 0.3, the total over
    the two distinct days is 0.30000000000000004. *)
Lemma daily_average_binary64_differs :
  let rows := sample_month Binary64.lit (2024, 5) in
  rows ≠ []
  ∧ distinct_days rows = 2%nat
  ∧ daily_average rows = S754_finite false 5404319552844595 (-54)
  ∧ div (total_spent rows) (of_count (distinct_days rows))
    = S754_finite false 5404319552844596 (-54)
  ∧ daily_average rows
    ≠ div (total_spent rows) (of_count (distinct_days rows)).
Proof.
  intros rows.
  assert (Ha : daily_average rows = S754_finite false 5404319552844595 (-54))
    by (vm_compute; reflexivity).
  assert (Hq : div (total_spent rows) (of_count (distinct_days rows))
               = S754_finite false 5404319552844596 (-54))
    by (vm_compute; reflexivity).
  split; [vm_compute; discriminate|].
  split; [vm_compute; reflexivity|].
  split; [exact Ha|]. split; [exact Hq|].
  rewrite Ha, Hq. intros [=].
Qed.

(** A day whose sum is NaN is left out of the mean: with +inf and -inf on
    1 May and 5 on 2 May there are two distinct dates and the mean
    divides by 1. *)
Example nan_day_left_out :
  let rows :=
    [(mkDate 2024 5 1,
      mkExpense 1 "asha" "2024-05-01" (Some "Food") (S754_infinity false) "");
     (mkDate 2024 5 1,
      mkExpense 2 "asha" "2024-05-01" (Some "Food") (S754_infinity true) "");
     (mkDate 2024 5 2,
      mkExpense 3 "asha" "2024-05-02" (Some "Food") (Binary64.of_Z 5) "")] in
  distinct_days rows = 2%nat
  ∧ (per_day rows).*2 = [S754_nan; Binary64.of_Z 5]
  ∧ daily_average rows = Binary64.of_Z 5.
Proof. repeat split; by vm_compute. Qed.

(** C3, amended. On a month with at least one expense the daily average
    is the mean of the per-day sums. There is one per-day sum for each
    distinct date of the month; when none of them is NaN, the mean
    divides their sum by the number of distinct dates. When the amounts
    are whole numbers whose absolute values add up to less than 2^53,
    which binary64 adds without rounding, the daily average is the
    month's total divided by the number of distinct dates. *)
Theorem daily_average_whole_amounts (rows : list (dated spec_float)) :
  rows ≠ [] →
  length (per_day rows) = distinct_days rows
  ∧ (Forall (λ x, is_nan x = false) (per_day rows).*2 →
     daily_average rows
     = div (nansum (per_day rows).*2) (of_count (distinct_days rows)))
  ∧ (whole_amounts rows →
     daily_average rows
     = div (total_spent rows) (of_count (distinct_days rows))).
Proof.
  intros Hne.
  assert (Hmean : Forall (λ x, is_nan x = false) (per_day rows).*2 →
     daily_average rows
     = div (nansum (per_day rows).*2) (of_count (distinct_days rows))).
  { intros Hnn. unfold daily_average, nanmean.
    rewrite (filter_all _ _ Hnn), length_fmap, per_day_length.
    by destruct (distinct_days_pos rows Hne) as [n ->]. }
  split; [apply per_day_length|]. split; [exact Hmean|].
  intros Hw. pose proof Hw as [_ Hb].
  assert (Hkey : ∀ r, r ∈ rows → is_Some (Some (d_date r))) by (by eexists).
  pose proof (Z.le_lt_trans _ _ _
                (groupby_abs_le (λ r, Some (d_date r)) rows Hkey) Hb) as Hlt.
  pose proof (groupby_sum_whole (λ r, Some (d_date r)) rows Hw) as Hsums.
  fold (per_day rows) in Hsums.
  rewrite Hmean by (rewrite Hsums; apply whole_no_nan; exact Hlt).
  f_equal. rewrite Hsums, nansum_whole by exact Hlt.
  rewrite (groupby_total (λ r, Some (d_date r)) rows Hkey).
  symmetry. by apply total_spent_whole.
Qed.

Lemma daily_average_whole_amounts_witness :
  let rows := whole_month Binary64.lit in
  rows ≠ []
  ∧ whole_amounts rows
  ∧ distinct_days rows = 2%nat
  ∧ total_spent rows = Binary64.of_Z 170
  ∧ daily_average rows = Binary64.of_Z 85
  ∧ daily_average rows
    = div (total_spent rows) (of_count (distinct_days rows)).
Proof.
  intros rows.
  assert (Hne : rows ≠ []) by (vm_compute; discriminate).
  assert (Hw : whole_amounts rows).
  { split; [|vm_compute; reflexivity].
    repeat (constructor; [vm_compute; reflexivity|]). constructor. }
  split; [exact Hne|]. split; [exact Hw|].
  split; [vm_compute; reflexivity|].
  split; [vm_compute; reflexivity|].
  split; [vm_compute; reflexivity|].
  exact (proj2 (proj2 (daily_average_whole_amounts rows Hne)) Hw).
Defined.

(** C4, as the spec states it, fails, in two ways. On binary64, with
    Food 0.1 and Transport 0.2 + 0.3 the category sums add up to 0.6, the
    total is 0.6000000000000001. And an expense without a category, as an
    uploaded file with an empty cell leaves it, is in the total and in no
    category: with Food 100 and 50 without category the category sums
    add up to 100, the total is 150. *)
Lemma category_sums_binary64_differ :
  let rows := sample_month Binary64.lit (2024, 5) in
  let uploaded := uploaded_month Binary64.lit in
  spent_by_cat rows
  = [("Food", Binary64.lit 1 1); ("Transport", Binary64.lit 5 1)]
  ∧ pysum (spent_by_cat rows).*2
    = S754_finite false 5404319552844595 (-53)
  ∧ total_spent rows = S754_finite false 5404319552844596 (-53)
  ∧ pysum (spent_by_cat rows).*2 ≠ total_spent rows
  ∧ spent_by_cat uploaded = [("Food", Binary64.of_Z 100)]
  ∧ total_spent uploaded = Binary64.of_Z 150
  ∧ pysum (spent_by_cat uploaded).*2 ≠ total_spent uploaded.
Proof.
  intros rows uploaded.
  assert (Hc : pysum (spent_by_cat rows).*2
               = S754_finite false 5404319552844595 (-53))
    by (vm_compute; reflexivity).
  assert (Ht : total_spent rows = S754_finite false 5404319552844596 (-53))
    by (vm_compute; reflexivity).
  split; [vm_compute; reflexivity|].
  split; [exact Hc|]. split; [exact Ht|].
  split; [rewrite Hc, Ht; intros [=]|].
  split; [vm_compute; reflexivity|].
  split; [vm_compute; reflexivity|].
  vm_compute. intros [=].
Qed.

(** C4, amended. When every expense of the month has a category and the
    amounts are whole numbers whose absolute values add up to less than
    2^53, which binary64 adds without rounding, the values of
    [spent_by_cat] add up to [total_spent]. *)
Theorem category_sums_whole_amounts (rows : list (dated spec_float)) :
  Forall (λ r, is_Some (d_category r)) rows →
  whole_amounts rows →
  pysum (spent_by_cat rows).*2 = total_spent rows.
Proof.
  intros Hcat Hw. pose proof Hw as [_ Hb].
  assert (Hkey : ∀ r, r ∈ rows → is_Some (d_category r))
    by (by apply Forall_forall).
  pose proof (Z.le_lt_trans _ _ _
                (groupby_abs_le d_category rows Hkey) Hb) as Hlt.
  unfold spent_by_cat.
  rewrite (groupby_sum_whole d_category rows Hw), pysum_whole by exact Hlt.
  rewrite (groupby_total d_category rows Hkey).
  symmetry. by apply total_spent_whole.
Qed.

Lemma category_sums_whole_amounts_witness :
  let rows := whole_month Binary64.lit in
  Forall (λ r, is_Some (d_category r)) rows
  ∧ whole_amounts rows
  ∧ spent_by_cat rows
    = [("Food", Binary64.of_Z 150); ("Transport", Binary64.of_Z 20)]
  ∧ total_spent rows = Binary64.of_Z 170
  ∧ pysum (spent_by_cat rows).*2 = total_spent rows.
Proof.
  intros rows.
  assert (Hcat : Forall (λ r, is_Some (d_category r)) rows).
  { repeat (constructor; [by eexists|]). constructor. }
  assert (Hw : whole_amounts rows).
  { split; [|vm_compute; reflexivity].
    repeat (constructor; [vm_compute; reflexivity|]). constructor. }
  split; [exact Hcat|]. split; [exact Hw|].
  split; [vm_compute; reflexivity|].
  split; [vm_compute; reflexivity|].
  exact (category_sums_whole_amounts rows Hcat Hw).
Defined.

(* ===================================================================== *)
(** * The record store: rows, keys and ids *)
(* ===================================================================== *)

Section StoreFacts.
Context {num : Type}.
Implicit Types (s : Store num) (rows : list (expense num)).

Lemma filter_none {A : Type} (P : A → Prop) `{∀ x, Decision (P x)}
    (l : list A) :
  Forall (λ x, ¬ P x) l → filter P l = [].
Proof.
  induction 1 as [|x l Hx _ IH]; [done|].
  by rewrite filter_cons_False.
Qed.

Lemma NoDup_fmap_filter {A B : Type} (f : A → B) (P : A → Prop)
    `{∀ x, Decision (P x)} (l : list A) :
  NoDup (f <$> l) → NoDup (f <$> filter P l).
Proof.
  intros Hnd. eapply sublist_NoDup; [exact Hnd|].
  apply fmap_sublist. by apply sublist_filter.
Qed.

Lemma store_eq s (us : list string) (es : list (expense num))
    (bs : list (budget_row num)) :
  users s = us → expenses s = es → budget s = bs → mkStore us es bs = s.
Proof. destruct s; simpl; by intros -> -> ->. Qed.

(** ** Rowids *)

Lemma largest_rowid_ge (r : expense num) rest (j : Z) :
  j ∈ e_id <$> (r :: rest) → j ≤ largest_rowid r rest.
Proof.
  unfold largest_rowid. rewrite fmap_cons.
  induction rest as [|r' rest IH]; [|rewrite fmap_cons, foldr_cons].
  - intros ->%list_elem_of_singleton. simpl. lia.
  - rewrite !elem_of_cons. intros [->|[->|Hj]].
    + specialize (IH ltac:(left)). lia.
    + lia.
    + specialize (IH ltac:(by right)). lia.
Qed.

Lemma largest_rowid_in (r : expense num) rest :
  largest_rowid r rest ∈ e_id <$> (r :: rest).
Proof.
  unfold largest_rowid. rewrite fmap_cons.
  induction rest as [|r' rest IH]; [left|rewrite fmap_cons, foldr_cons].
  destruct (Z.max_spec (e_id r') (foldr Z.max (e_id r) (e_id <$> rest)))
    as [[_ ->]|[_ ->]].
  - apply elem_of_cons in IH as [->|IH]; [left|right; by right].
  - right; left.
Qed.

(** The id the store picks is above every id in the table. *)
Lemma new_rowid_fresh rows (i : Z) :
  new_rowid rows = Some i → ∀ j, j ∈ e_id <$> rows → j < i.
Proof.
  destruct rows as [|r rest]; [by intros _ j ?%elem_of_nil|].
  unfold new_rowid. destruct (_ <? _); [|done].
  intros [= <-] j Hj%largest_rowid_ge. lia.
Qed.

(** While the ids are between 1 and [n], with [n] below the largest
    rowid, the store picks an id, at most [n + 1]. *)
Lemma new_rowid_total rows (n : Z) :
  (∀ j, j ∈ e_id <$> rows → 1 ≤ j ≤ n) → 0 ≤ n < MAX_ROWID →
  ∃ i, new_rowid rows = Some i ∧ 1 ≤ i ≤ n + 1.
Proof.
  intros Hb Hn. destruct rows as [|r rest].
  - exists 1. split; [done|]. lia.
  - unfold new_rowid. pose proof (Hb _ (largest_rowid_in r rest)) as Hm.
    destruct (Z.ltb_spec (largest_rowid r rest) MAX_ROWID); [|lia].
    eexists; split; [done|]. lia.
Qed.

Lemma add_expense_rows (username date : string) (category : option string)
    (amount : num) (description : string) s (i : Z) :
  new_rowid (expenses s) = Some i →
  add_expense username date category amount description s
  = Some (mkStore (users s)
            (expenses s
               ++ [mkExpense i username date category amount description])
            (budget s)).
Proof. unfold add_expense. by intros ->. Qed.

(** ** Deleting by id *)

Lemma delete_absent rows (i : Z) :
  i ∉ e_id <$> rows → filter (λ r, e_id r ≠ i) rows = rows.
Proof.
  intros Hi. apply filter_all, Forall_forall. intros r Hr Heq.
  apply Hi. rewrite <- Heq. by apply list_elem_of_fmap_2.
Qed.

Lemma delete_present rows (i : Z) :
  NoDup (e_id <$> rows) → i ∈ e_id <$> rows →
  ∃ l1 r l2, rows = l1 ++ r :: l2 ∧ e_id r = i
             ∧ filter (λ r, e_id r ≠ i) rows = l1 ++ l2.
Proof.
  intros Hnd (r & -> & Hr)%list_elem_of_fmap.
  apply list_elem_of_split in Hr as (l1 & l2 & ->).
  exists l1, r, l2. split; [done|]. split; [done|].
  rewrite fmap_app, fmap_cons in Hnd.
  apply NoDup_app in Hnd as (_ & H1 & [H2 _]%NoDup_cons).
  rewrite filter_app, filter_cons_False by (intros Hne; by apply Hne).
  rewrite !delete_absent; [done|done|].
  intros Hin. by apply (H1 _ Hin); left.
Qed.

(** ** Budget keys *)

Lemma budget_entries_set_same (username category : string) (limit : num) s :
  budget_entries (username, category) (set_budget username category limit s)
  = [mkBudget username category limit].
Proof.
  unfold budget_entries, set_budget; simpl.
  rewrite filter_app, (filter_cons_True _ _ []) by done.
  rewrite filter_none; [done|].
  apply Forall_forall. by intros b [Hb _]%list_elem_of_filter.
Qed.

Lemma budget_entries_set_other (username category : string) (limit : num) s
    (k : string * string) :
  k ≠ (username, category) →
  budget_entries k (set_budget username category limit s)
  = budget_entries k s.
Proof.
  intros Hk. unfold budget_entries, set_budget; simpl.
  rewrite filter_app, (filter_cons_False _ _ []), app_nil_r
    by (unfold budget_key; simpl; intros <-; by apply Hk).
  rewrite list_filter_filter. apply list_filter_iff.
  intros b. split; [by intros []|]. intros Hb; split; [done|congruence].
Qed.

Lemma set_budget_keys_NoDup (username category : string) (limit : num) s :
  NoDup (budget_key <$> budget s) →
  NoDup (budget_key <$> budget (set_budget username category limit s)).
Proof.
  intros Hnd. unfold set_budget; simpl. rewrite fmap_app.
  apply NoDup_app. split; [|split].
  - by apply NoDup_fmap_filter.
  - intros k (b & -> & [Hb _]%list_elem_of_filter)%list_elem_of_fmap.
    intros Heq%list_elem_of_singleton. by apply Hb.
  - apply NoDup_singleton.
Qed.
End StoreFacts.

Section StoreRuns.
Context {num : Type}.
Implicit Types (s : Store num) (ops : list (op num)).

(** A key that is unique in the table has at most one row. *)
Lemma unique_key_one_row {A K : Type} `{EqDecision K} (f : A → K) (k : K)
    (l : list A) :
  NoDup (f <$> l) → (length (filter (λ x, f x = k) l) ≤ 1)%nat.
Proof.
  induction l as [|x l IH]; [simpl; lia|].
  rewrite fmap_cons, NoDup_cons. intros [Hx Hnd].
  rewrite filter_cons. destruct (decide (f x = k)) as [<-|]; [|by apply IH].
  rewrite filter_none; [simpl; lia|].
  apply Forall_forall. intros y Hy Heq. apply Hx. rewrite <- Heq.
  by apply list_elem_of_fmap_2.
Qed.

(** A run of [set_budget] calls: what each key holds at the end. *)
Lemma run_set_budgets ops s (acc : list Z) :
  Forall (λ o, is_set_budget o = true) ops →
  NoDup (budget_key <$> budget s) →
  ∃ s', run ops s acc = Some (s', acc)
    ∧ NoDup (budget_key <$> budget s')
    ∧ (∀ k, budget_entries k s'
            = match last_set k ops with
              | Some l => [mkBudget k.1 k.2 l]
              | None => budget_entries k s
              end)
    ∧ users s' = users s ∧ expenses s' = expenses s.
Proof.
  intros Hops. revert s. induction Hops as [|o ops Ho _ IH]; intros s Hnd.
  - exists s. by repeat split.
  - destruct o as [| | |u c l]; try done. simpl.
    destruct (IH (set_budget u c l s) (set_budget_keys_NoDup u c l s Hnd))
      as (s' & Hrun & Hnd' & Hent & Hu & He).
    exists s'. repeat split; try done.
    intros k. rewrite Hent. destruct (last_set k ops); [done|].
    destruct (decide ((u, c) = k)) as [<-|Hk].
    + apply budget_entries_set_same.
    + by apply budget_entries_set_other.
Qed.

(** A run from a store whose ids are distinct and between 1 and [n]:
    it goes through, and the ids stay distinct and below [n] plus the
    number of operations. *)
Lemma run_ids ops s (acc : list Z) (n : Z) :
  0 ≤ n →
  NoDup (stored_ids s) →
  (∀ j, j ∈ stored_ids s → 1 ≤ j ≤ n) →
  n + Z.of_nat (length ops) ≤ MAX_ROWID →
  ∃ s' acc', run ops s acc = Some (s', acc')
    ∧ NoDup (stored_ids s')
    ∧ (∀ j, j ∈ stored_ids s' → 1 ≤ j ≤ n + Z.of_nat (length ops)).
Proof.
  revert s acc n. induction ops as [|o ops IH]; intros s acc n Hn Hnd Hb Hlen.
  - exists s, acc. split; [done|]. split; [done|].
    intros j Hj%Hb. simpl. lia.
  - rewrite length_cons, Nat2Z.inj_succ in Hlen.
    assert (Hstep : ∃ s1, apply_op o s = Some s1 ∧ NoDup (stored_ids s1)
                          ∧ ∀ j, j ∈ stored_ids s1 → 1 ≤ j ≤ n + 1).
    { destruct o as [u|u d c a desc|i|u c l]; simpl.
      - exists (login_user u s). split; [done|].
        unfold login_user. destruct (decide _); simpl;
          (split; [done|]); intros j Hj%Hb; lia.
      - destruct (new_rowid_total (expenses s) n Hb ltac:(lia))
          as (i & Hi & Hi1).
        rewrite (add_expense_rows _ _ _ _ _ _ _ Hi).
        eexists; split; [done|]. unfold stored_ids; simpl.
        rewrite fmap_app. split.
        + apply NoDup_app. split; [done|]. split; [|apply NoDup_singleton].
          intros j Hj ->%list_elem_of_singleton.
          pose proof (new_rowid_fresh _ _ Hi _ Hj) as Hlt. simpl in Hlt. lia.
        + intros j [Hj%Hb| ->%list_elem_of_singleton]%elem_of_app; simpl; lia.
      - exists (delete_expense i s). split; [done|].
        unfold stored_ids; simpl. split; [by apply NoDup_fmap_filter|].
        intros j (r & -> & [_ Hr]%list_elem_of_filter)%list_elem_of_fmap.
        assert (1 ≤ e_id r ≤ n) by (apply Hb; by apply list_elem_of_fmap_2).
        lia.
      - exists (set_budget u c l s). split; [done|]. split; [done|].
        intros j Hj%Hb; lia. }
    destruct Hstep as (s1 & Hs1 & Hnd1 & Hb1).
    simpl. rewrite Hs1. simpl.
    edestruct (IH s1) as (s' & acc' & Hrun & Hnd' & Hb');
      [| exact Hnd1 | exact Hb1 | | ]; [lia | lia |].
    exists s', acc'. split; [exact Hrun|]. split; [done|].
    intros j Hj%Hb'. lia.
Qed.
End StoreRuns.

(* ===================================================================== *)
(** * Claims about the record store *)
(* ===================================================================== *)

(** C5, as the spec states it, fails: nothing is validated on the way
    into the store. An expense of -5 with a date that is no date is
    stored by [add_expense], also through the import page, and a limit of
    0 is stored by [set_budget]. *)
Lemma invalid_input_is_stored :
  let minus5 := Binary64.of_Z (-5) in
  let bad := mkExpense 1 "asha" "not-a-date" (Some "Food") minus5 "refund" in
  leb minus5 zero = true
  ∧ iso_date "not-a-date" = None
  ∧ add_expense "asha" "not-a-date" (Some "Food") minus5 "refund" empty_db
    = Some (mkStore [] [bad] [])
  ∧ import_csv "asha" [mkCsv "not-a-date" (Some "Food") minus5 "refund"]
      empty_db
    = Some (mkStore [] [bad] [])
  ∧ set_budget "asha" "Food" (S754_zero false) empty_db
    = mkStore [] [] [mkBudget "asha" "Food" (S754_zero false)].
Proof. repeat split; vm_compute; reflexivity. Qed.

(** C5, amended. The two writes check nothing: [add_expense] stores one
    new row holding exactly the username, date, category, amount and
    description it was given, under the id the store picks, and
    [set_budget] stores the limit it was given as the only row of its
    (username, category); each leaves every other row of every table as it
    was. *)
Theorem writes_store_what_they_get {num : Type} (s : Store num)
    (username date description : string) (category : option string)
    (budget_category : string) (amount limit : num) (i : Z) :
  new_rowid (expenses s) = Some i →
  (∃ s', add_expense username date category amount description s = Some s'
         ∧ expenses s'
           = expenses s
               ++ [mkExpense i username date category amount description]
         ∧ users s' = users s ∧ budget s' = budget s)
  ∧ (let s' := set_budget username budget_category limit s in
     budget_entries (username, budget_category) s'
     = [mkBudget username budget_category limit]
     ∧ (∀ k, k ≠ (username, budget_category) →
             budget_entries k s' = budget_entries k s)
     ∧ users s' = users s ∧ expenses s' = expenses s).
Proof.
  intros Hi. split.
  - rewrite (add_expense_rows _ _ _ _ _ _ _ Hi). by eexists.
  - split; [apply budget_entries_set_same|].
    split; [|done]. intros k Hk. by apply budget_entries_set_other.
Qed.

Lemma writes_store_what_they_get_witness :
  let s := sample64 in
  new_rowid (expenses s) = Some 4
  ∧ (∃ s', add_expense "asha" "not-a-date" (Some "Food")
             (Binary64.of_Z (-5)) "refund" s = Some s'
           ∧ expenses s'
             = expenses s
                 ++ [mkExpense 4 "asha" "not-a-date" (Some "Food")
                       (Binary64.of_Z (-5)) "refund"]
           ∧ users s' = users s ∧ budget s' = budget s)
  ∧ (let s' := set_budget "asha" "Food" (S754_zero false) s in
     budget_entries ("asha", "Food") s'
     = [mkBudget "asha" "Food" (S754_zero false)]
     ∧ (∀ k, k ≠ ("asha", "Food") →
             budget_entries k s' = budget_entries k s)
     ∧ users s' = users s ∧ expenses s' = expenses s).
Proof.
  intros s.
  assert (Hi : new_rowid (expenses s) = Some 4) by (vm_compute; reflexivity).
  split; [exact Hi|].
  exact (writes_store_what_they_get s "asha" "not-a-date" "refund"
           (Some "Food") "Food" (Binary64.of_Z (-5)) (S754_zero false) 4 Hi).
Defined.

(** C6. [set_budget] is a last-write-wins upsert. After any sequence of
    [set_budget] calls on a store with one row per budget key, every
    (owner, category) still has at most one row; a key the sequence set
    holds exactly the limit of its last call, and a key it did not set
    holds what it held before. Users and expenses are untouched. *)
Theorem set_budget_last_write_wins {num : Type} (ops : list (op num))
    (s : Store num) :
  Forall (λ o, is_set_budget o = true) ops →
  NoDup (budget_key <$> budget s) →
  ∃ s', run ops s [] = Some (s', [])
    ∧ (∀ k, (length (budget_entries k s') ≤ 1)%nat
            ∧ budget_entries k s'
              = match last_set k ops with
                | Some l => [mkBudget k.1 k.2 l]
                | None => budget_entries k s
                end)
    ∧ users s' = users s ∧ expenses s' = expenses s.
Proof.
  intros Hops Hnd.
  destruct (run_set_budgets ops s [] Hops Hnd) as (s' & Hr & Hnd' & He & Hu).
  exists s'. split; [done|]. split; [|done].
  intros k. split; [|apply He]. by apply unique_key_one_row.
Qed.

Lemma set_budget_last_write_wins_witness :
  let ops := [SetBudget "asha" "Food" (Binary64.lit 120 0);
              SetBudget "asha" "Health" (Binary64.lit 50 0);
              SetBudget "asha" "Food" (Binary64.lit 200 0)] in
  Forall (λ o, is_set_budget o = true) ops
  ∧ NoDup (budget_key <$> budget sample64)
  ∧ ∃ s', run ops sample64 [] = Some (s', [])
      ∧ (∀ k, (length (budget_entries k s') ≤ 1)%nat
              ∧ budget_entries k s'
                = match last_set k ops with
                  | Some l => [mkBudget k.1 k.2 l]
                  | None => budget_entries k sample64
                  end)
      ∧ users s' = users sample64 ∧ expenses s' = expenses sample64.
Proof.
  intros ops.
  assert (Hops : Forall (λ o, is_set_budget o = true) ops)
    by (repeat constructor).
  assert (Hnd : NoDup (budget_key <$> budget sample64))
    by (vm_compute; apply NoDup_singleton).
  split; [exact Hops|]. split; [exact Hnd|].
  exact (set_budget_last_write_wins ops sample64 Hops Hnd).
Defined.

(** C7, as the spec states it, fails: the ids handed out are not
    increasing. After the only expense (id 1) is deleted, the next expense
    gets id 1 again. *)
Lemma deleted_id_is_assigned_again :
  let ops := [Add "asha" "2024-05-01" (Some "Food") (Binary64.lit 1 1) "tea";
              Delete 1;
              Add "asha" "2024-05-02" (Some "Food") (Binary64.lit 2 1)
                "tea"] in
  snd <$> run ops empty_db [] = Some [1; 1]
  ∧ ¬ increasing [1; 1].
Proof.
  split; [vm_compute; reflexivity|].
  intros Hinc. specialize (Hinc 0%nat 1%nat 1 1). simpl in Hinc.
  specialize (Hinc ltac:(lia) eq_refl eq_refl). lia.
Qed.

(** C7, amended. Ids are assigned by the store and are unique among the
    stored expenses: after any sequence of operations on the empty
    database (shorter than the largest rowid), no two stored expenses
    share an id, and the next [add_expense] stores its row under an id
    greater than every id then in the table. *)
Theorem expense_ids_unique_and_fresh {num : Type} (ops : list (op num)) :
  Z.of_nat (length ops) < MAX_ROWID →
  ∃ s assigned,
    run ops empty_db [] = Some (s, assigned)
    ∧ NoDup (stored_ids s)
    ∧ ∀ (username date : string) (category : option string)
        (amount : num) (description : string),
        ∃ i s',
          add_expense username date category amount description s = Some s'
          ∧ expenses s'
            = expenses s
                ++ [mkExpense i username date category amount description]
          ∧ (∀ j, j ∈ stored_ids s → j < i)
          ∧ NoDup (stored_ids s').
Proof.
  intros Hlen.
  destruct (run_ids ops empty_db [] 0) as (s & acc & Hrun & Hnd & Hb);
    [lia | apply NoDup_nil_2 | by intros j ?%elem_of_nil | lia |].
  exists s, acc. split; [done|]. split; [done|].
  intros u d c a desc.
  destruct (new_rowid_total (expenses s) _ Hb ltac:(lia)) as (i & Hi & _).
  pose proof (new_rowid_fresh _ _ Hi) as Hfresh.
  exists i. eexists. split; [by apply add_expense_rows|].
  split; [done|]. split; [done|].
  unfold stored_ids; simpl. rewrite fmap_app.
  apply NoDup_app. split; [done|]. split; [|apply NoDup_singleton].
  intros j Hj%Hfresh Hs. apply list_elem_of_singleton in Hs. simpl in Hs. lia.
Qed.

Lemma expense_ids_unique_and_fresh_witness :
  let ops := [Add "asha" "2024-05-01" (Some "Food") (Binary64.lit 1 1) "tea";
              Delete 1;
              Add "asha" "2024-05-02" (Some "Food") (Binary64.lit 2 1)
                "tea"] in
  Z.of_nat (length ops) < MAX_ROWID
  ∧ ∃ s assigned,
      run ops empty_db [] = Some (s, assigned)
      ∧ NoDup (stored_ids s)
      ∧ ∀ (username date : string) (category : option string)
          (amount : spec_float) (description : string),
          ∃ i s',
            add_expense username date category amount description s
            = Some s'
            ∧ expenses s'
              = expenses s
                  ++ [mkExpense i username date category amount description]
            ∧ (∀ j, j ∈ stored_ids s → j < i)
            ∧ NoDup (stored_ids s').
Proof.
  intros ops.
  assert (Hlen : Z.of_nat (length ops) < MAX_ROWID) by (vm_compute; reflexivity).
  split; [exact Hlen|].
  exact (expense_ids_unique_and_fresh ops Hlen).
Defined.

(** C8. Users are separate partitions. For two distinct usernames A and
    B, [login_user], [set_budget] and [add_expense] for A leave
    [get_expenses B] and [get_budget B] as they were, and every row of
    [get_expenses A] is owned by A. *)
Theorem users_are_partitions {num : Type} (s : Store num) (A B : string) :
  A ≠ B →
  (get_expenses B (login_user A s) = get_expenses B s
   ∧ get_budget B (login_user A s) = get_budget B s)
  ∧ (∀ category limit,
       get_expenses B (set_budget A category limit s) = get_expenses B s
       ∧ get_budget B (set_budget A category limit s) = get_budget B s)
  ∧ (∀ date category amount description s',
       add_expense A date category amount description s = Some s' →
       get_expenses B s' = get_expenses B s
       ∧ get_budget B s' = get_budget B s)
  ∧ Forall (λ r, e_username r = A) (get_expenses A s).
Proof.
  intros HAB. repeat split.
  - unfold login_user. by destruct (decide _).
  - unfold login_user. by destruct (decide _).
  - unfold get_budget, set_budget. cbn [budget]. f_equal.
    rewrite filter_app, (filter_cons_False _ _ []), app_nil_r by done.
    rewrite list_filter_filter. apply list_filter_iff.
    intros b. split; [by intros []|]. intros Hb; split; [done|].
    unfold budget_key. intros [= HA _]. apply HAB. by rewrite <- HA.
  - unfold add_expense in H. destruct (new_rowid _); [|done].
    injection H as <-. unfold get_expenses; simpl.
    by rewrite filter_app, (filter_cons_False _ _ []), app_nil_r.
  - unfold add_expense in H. destruct (new_rowid _); [|done].
    by injection H as <-.
  - apply Forall_forall. by intros r [Hr _]%list_elem_of_filter.
Qed.

Lemma users_are_partitions_witness :
  let s := sample64 in
  "bina" ≠ "asha"
  ∧ add_expense "bina" "2024-05-03" (Some "Food") (Binary64.lit 75 1)
      "lunch" s
    ≠ None
  ∧ (get_expenses "asha" (login_user "bina" s) = get_expenses "asha" s
     ∧ get_budget "asha" (login_user "bina" s) = get_budget "asha" s)
  ∧ (∀ category limit,
       get_expenses "asha" (set_budget "bina" category limit s)
       = get_expenses "asha" s
       ∧ get_budget "asha" (set_budget "bina" category limit s)
         = get_budget "asha" s)
  ∧ (∀ date category amount description s',
       add_expense "bina" date category amount description s = Some s' →
       get_expenses "asha" s' = get_expenses "asha" s
       ∧ get_budget "asha" s' = get_budget "asha" s)
  ∧ Forall (λ r, e_username r = "bina") (get_expenses "bina" s).
Proof.
  intros s.
  assert (Hne : "bina" ≠ "asha") by discriminate.
  split; [exact Hne|]. split; [vm_compute; discriminate|].
  exact (users_are_partitions s "bina" "asha" Hne).
Defined.

(** C9. Deleting an id that no stored expense has is a no-op: the call
    returns and the store is the one it was given. *)
Theorem delete_absent_id_is_noop {num : Type} (s : Store num)
    (expense_id : Z) :
  expense_id ∉ stored_ids s → delete_expense expense_id s = s.
Proof.
  intros Hi. unfold delete_expense. apply store_eq; try done.
  symmetry. by apply delete_absent.
Qed.

Lemma delete_absent_id_is_noop_witness :
  (42 ∉ stored_ids sample64) ∧ delete_expense 42 sample64 = sample64.
Proof.
  assert (Hi : 42 ∉ stored_ids sample64).
  { vm_compute. intros Hin. repeat (apply elem_of_cons in Hin as [[=]|Hin]).
    by apply elem_of_nil in Hin. }
  split; [exact Hi|]. exact (delete_absent_id_is_noop sample64 42 Hi).
Defined.

(** C10. [delete_expense] goes by id alone. In a store whose ids are
    distinct, deleting an id that is present removes the one row with
    that id, whoever owns it, keeps every other expense row in place, and
    leaves users and budgets as they were. *)
Theorem delete_removes_exactly_that_id {num : Type} (s : Store num)
    (expense_id : Z) :
  NoDup (stored_ids s) →
  expense_id ∈ stored_ids s →
  ∃ l1 r l2,
    expenses s = l1 ++ r :: l2
    ∧ e_id r = expense_id
    ∧ expenses (delete_expense expense_id s) = l1 ++ l2
    ∧ users (delete_expense expense_id s) = users s
    ∧ budget (delete_expense expense_id s) = budget s.
Proof.
  intros Hnd Hin.
  destruct (delete_present (expenses s) expense_id Hnd Hin)
    as (l1 & r & l2 & He & Hr & Hf).
  exists l1, r, l2. by repeat split.
Qed.

Lemma delete_removes_exactly_that_id_witness :
  NoDup (stored_ids sample64)
  ∧ 2 ∈ stored_ids sample64
  ∧ ∃ l1 r l2,
      expenses sample64 = l1 ++ r :: l2
      ∧ e_id r = 2
      ∧ expenses (delete_expense 2 sample64) = l1 ++ l2
      ∧ users (delete_expense 2 sample64) = users sample64
      ∧ budget (delete_expense 2 sample64) = budget sample64.
Proof.
  assert (Hnd : NoDup (stored_ids sample64)).
  { vm_compute. apply (NoDup_ListNoDup [1; 2; 3]).
    repeat constructor; simpl; intuition discriminate. }
  assert (Hin : 2 ∈ stored_ids sample64) by (vm_compute; right; left).
  split; [exact Hnd|]. split; [exact Hin|].
  exact (delete_removes_exactly_that_id sample64 2 Hnd Hin).
Defined.

(* ===================================================================== *)
(** * Further properties of the record store *)
(* ===================================================================== *)

Section StoreMore.
Context {num : Type}.
Implicit Types (s : Store num) (ops : list (op num)).

Lemma add_expense_inv (username date : string) (category : option string)
    (amount : num) (description : string) s s' :
  add_expense username date category amount description s = Some s' →
  ∃ i, new_rowid (expenses s) = Some i
       ∧ s' = mkStore (users s)
                (expenses s
                   ++ [mkExpense i username date category amount description])
                (budget s).
Proof.
  unfold add_expense. destruct (new_rowid (expenses s)) as [i|]; [|done].
  intros [= <-]. by exists i.
Qed.

Lemma new_rowid_not_stored (rows : list (expense num)) (i : Z) :
  new_rowid rows = Some i → i ∉ e_id <$> rows.
Proof. intros Hi Hin. pose proof (new_rowid_fresh _ _ Hi _ Hin). lia. Qed.

Lemma apply_op_keeps_primary_keys (o : op num) s s' :
  primary_keys s → apply_op o s = Some s' → primary_keys s'.
Proof.
  intros (Hu & He & Hb). destruct o as [u|u d c a desc|i|u c l]; simpl.
  - intros [= <-]. unfold login_user.
    destruct (decide (u ∈ users s)) as [|Hn]; [done|].
    split; [|done]. simpl. apply NoDup_app. split; [done|].
    split; [|apply NoDup_singleton].
    intros v Hv Hs. apply list_elem_of_singleton in Hs. subst v.
    by apply Hn.
  - intros (i & Hi & ->)%add_expense_inv. split; [done|]. split; [|done].
    simpl. rewrite fmap_app. apply NoDup_app. split; [done|].
    split; [|apply NoDup_singleton].
    intros j Hj Hs. apply list_elem_of_singleton in Hs. simpl in Hs. subst j.
    by apply (new_rowid_not_stored _ _ Hi).
  - intros [= <-]. split; [done|]. split; [|done].
    simpl. by apply NoDup_fmap_filter.
  - intros [= <-]. split; [done|]. split; [done|].
    by apply set_budget_keys_NoDup.
Qed.

(** X1. The primary keys of the three tables are kept by every sequence
    of store operations. *)
Theorem run_keeps_primary_keys ops s (acc : list Z) s' (acc' : list Z) :
  primary_keys s → run ops s acc = Some (s', acc') → primary_keys s'.
Proof.
  revert s acc. induction ops as [|o ops IH]; intros s acc Hk; simpl.
  - by intros [= <- _].
  - destruct (apply_op o s) as [s1|] eqn:Ho; [|done]. simpl.
    apply IH. by eapply apply_op_keeps_primary_keys.
Qed.

(** X2. [login_user] registers the name, keeps the names that were
    registered, and is idempotent. *)
Theorem login_user_idempotent (username : string) s :
  username ∈ users (login_user username s)
  ∧ (∀ v, v ∈ users s → v ∈ users (login_user username s))
  ∧ login_user username (login_user username s) = login_user username s.
Proof.
  assert (Hin : username ∈ users (login_user username s)).
  { unfold login_user. destruct (decide (username ∈ users s)); simpl;
      [done|]. apply elem_of_app. right; left. }
  split; [exact Hin|]. split.
  - intros v Hv. unfold login_user.
    destruct (decide (username ∈ users s)); simpl; [done|].
    apply elem_of_app. by left.
  - revert Hin. generalize (login_user username s). intros s1 Hin.
    unfold login_user. by destruct (decide (username ∈ users s1)).
Qed.

(** X3. An expense that was added is read back: [get_expenses] of its
    owner returns the rows it returned before, then the new row with the
    fields given, under an id that no stored expense had. *)
Theorem add_then_get (username date : string) (category : option string)
    (amount : num) (description : string) s s' :
  add_expense username date category amount description s = Some s' →
  ∃ i, (i ∉ stored_ids s)
       ∧ stored_ids s' = stored_ids s ++ [i]
       ∧ get_expenses username s'
         = get_expenses username s
             ++ [mkExpense i username date category amount description].
Proof.
  intros (i & Hi & ->)%add_expense_inv. exists i.
  split; [by apply new_rowid_not_stored|].
  split; [unfold stored_ids; simpl; by rewrite fmap_app|].
  unfold get_expenses; simpl.
  by rewrite filter_app, (filter_cons_True _ _ []).
Qed.

(** The user's rows of the budget table after [set_budget]: the rows of
    the other categories, then the new row. *)
Lemma budget_rows_after_set (username category : string) (limit : num) s :
  filter (λ b, b_username b = username)
    (budget (set_budget username category limit s))
  = filter (λ b, b_category b ≠ category)
      (filter (λ b, b_username b = username) (budget s))
      ++ [mkBudget username category limit].
Proof.
  unfold set_budget. cbn [budget].
  rewrite filter_app, (filter_cons_True _ _ []) by done. f_equal.
  rewrite !list_filter_filter. apply list_filter_iff.
  intros b. unfold budget_key. split.
  - intros [Hu Hk]. split; [|done]. intros Hc. apply Hk. by rewrite Hu, Hc.
  - intros [Hc Hu]. split; [done|]. intros [= _ Hc']. by apply Hc.
Qed.

Lemma category_leb_total :
  Total (λ a b : budget_row num, Is_true (category_leb a b)).
Proof.
  intros a b. unfold category_leb.
  destruct (String.leb_total (b_category a) (b_category b)) as [Hab|Hba];
    [left|right]; by apply Is_true_true.
Qed.

(** X4. A budget that was set is read back: [get_budget] of its owner
    returns the rows it returned before for the other categories and the
    one row of this category with the limit given, all in increasing
    order of the category. *)
Theorem set_budget_then_get (username category : string) (limit : num) s :
  get_budget username (set_budget username category limit s)
  ≡ₚ filter (λ b, b_category b ≠ category) (get_budget username s)
       ++ [mkBudget username category limit]
  ∧ Sorted (λ a b, Is_true (category_leb a b))
      (get_budget username (set_budget username category limit s))
  ∧ filter (λ b, b_category b = category)
      (get_budget username (set_budget username category limit s))
    = [mkBudget username category limit].
Proof.
  unfold get_budget. split; [|split].
  - rewrite !merge_sort_Permutation. by rewrite budget_rows_after_set.
  - exact (@Sorted_merge_sort _ _ _ category_leb_total _).
  - apply Permutation_singleton_r.
    rewrite merge_sort_Permutation, budget_rows_after_set.
    rewrite filter_app, (filter_cons_True _ _ []) by done.
    rewrite filter_none; [done|].
    apply Forall_forall. by intros b [Hb _]%list_elem_of_filter.
Qed.

(** X5. Deleting the id of the expense that was just added gives back the
    store as it was before the insert. *)
Theorem add_then_delete (username date : string) (category : option string)
    (amount : num) (description : string) s s' :
  add_expense username date category amount description s = Some s' →
  ∃ i, stored_ids s' = stored_ids s ++ [i] ∧ delete_expense i s' = s.
Proof.
  intros (i & Hi & ->)%add_expense_inv. exists i.
  split; [unfold stored_ids; simpl; by rewrite fmap_app|].
  unfold delete_expense; simpl. apply store_eq; try done.
  rewrite filter_app, (filter_cons_False _ _ []), app_nil_r
    by (simpl; intros Hne; by apply Hne).
  symmetry. apply delete_absent. by apply new_rowid_not_stored.
Qed.

(** X6. After [delete_expense] the id is stored no more; a second delete
    of the same id changes nothing, and deletes of two ids can be done in
    either order. *)
Theorem delete_expense_gone (i j : Z) s :
  (i ∉ stored_ids (delete_expense i s))
  ∧ delete_expense i (delete_expense i s) = delete_expense i s
  ∧ delete_expense i (delete_expense j s)
    = delete_expense j (delete_expense i s).
Proof.
  assert (Hgone : i ∉ stored_ids (delete_expense i s)).
  { unfold stored_ids, delete_expense; simpl.
    intros (r & Hr & [Hne _]%list_elem_of_filter)%list_elem_of_fmap.
    by apply Hne. }
  split; [exact Hgone|]. split.
  - unfold delete_expense at 1. apply store_eq; try done.
    symmetry. by apply delete_absent.
  - unfold delete_expense; simpl. f_equal.
    rewrite !list_filter_filter. apply list_filter_iff. intros r. tauto.
Qed.
End StoreMore.

Section ImportAndIds.
Context {num : Type}.
Implicit Types (s : Store num) (ops : list (op num)).

Lemma import_csv_spec (username : string) (rows : list (csv_row num)) s s' :
  import_csv username rows s = Some s' →
  ∃ news,
    expenses s' = expenses s ++ news
    ∧ Forall2 (stored_as username) rows news
    ∧ (∀ e j, e ∈ news → j ∈ stored_ids s → j < e_id e)
    ∧ users s' = users s ∧ budget s' = budget s.
Proof.
  revert s. induction rows as [|r rows IH]; intros s; simpl.
  - intros [= <-]. exists []. rewrite app_nil_r.
    repeat split; try done. by intros e j ?%elem_of_nil.
  - destruct (add_expense _ _ _ _ _ s) as [s1|] eqn:Ha; [|done]. simpl.
    apply add_expense_inv in Ha as (i & Hi & ->).
    intros (news & He & Hf & Hid & Hu & Hb)%IH. simpl in *.
    exists (mkExpense i username (c_date r) (c_category r) (c_amount r)
              (c_description r) :: news).
    split; [by rewrite He, <- app_assoc|].
    split; [constructor; [done|exact Hf]|].
    split; [|done]. intros e j [->|He']%elem_of_cons Hj.
    + simpl. by apply (new_rowid_fresh _ _ Hi).
    + apply (Hid e j He'). unfold stored_ids; simpl.
      rewrite fmap_app. apply elem_of_app. by left.
Qed.

Lemma stored_as_owned (username : string) (rows : list (csv_row num))
    (news : list (expense num)) :
  Forall2 (stored_as username) rows news →
  Forall (λ e, e_username e = username) news.
Proof.
  intros Hf. eapply Forall2_Forall_r; [exact Hf|].
  apply Forall_forall. by intros r _ e [Hu _].
Qed.

(** X7. The import stores one new expense per row of the uploaded frame,
    in the frame's order, after the expenses that were there: each holds
    the row's date, category, amount and description, belongs to the user
    who imports, and has an id above every id stored before. Users and
    budgets are left alone. Nothing is matched against the expenses
    that are there: the user's list grows by the number of rows. *)
Theorem import_appends_own_rows (username : string)
    (rows : list (csv_row num)) s s' :
  import_csv username rows s = Some s' →
  ∃ news,
    expenses s' = expenses s ++ news
    ∧ Forall2 (stored_as username) rows news
    ∧ (∀ e j, e ∈ news → j ∈ stored_ids s → j < e_id e)
    ∧ length (get_expenses username s')
      = (length (get_expenses username s) + length rows)%nat
    ∧ users s' = users s ∧ budget s' = budget s.
Proof.
  intros (news & He & Hf & Hid & Hu & Hb)%import_csv_spec.
  exists news. repeat (split; [done|]). split; [|done].
  unfold get_expenses. rewrite He, filter_app, length_app. f_equal.
  rewrite filter_all; [symmetry; by eapply Forall2_length|].
  by eapply stored_as_owned.
Qed.

(** ** Ids when nothing is deleted *)

Lemma seqZ_snoc (n : Z) : 0 ≤ n → seqZ 1 (n + 1) = seqZ 1 n ++ [n + 1].
Proof.
  intros Hn. rewrite (seqZ_app 1 n 1) by lia. f_equal.
  rewrite seqZ_cons, seqZ_nil by lia. f_equal. lia.
Qed.

Lemma new_rowid_seq (rows : list (expense num)) (n : Z) :
  e_id <$> rows = seqZ 1 n → 0 ≤ n < MAX_ROWID →
  new_rowid rows = Some (n + 1).
Proof.
  intros Hids Hn. destruct rows as [|r rest].
  - apply (f_equal length) in Hids. rewrite length_seqZ in Hids.
    simpl in Hids. assert (n = 0) as -> by lia. done.
  - unfold new_rowid.
    pose proof (largest_rowid_in r rest) as Hin. rewrite Hids in Hin.
    apply elem_of_seqZ in Hin.
    assert (Hpos : 1 ≤ n).
    { apply (f_equal length) in Hids. rewrite length_seqZ in Hids.
      simpl in Hids. lia. }
    assert (Hge : n ≤ largest_rowid r rest).
    { apply largest_rowid_ge. rewrite Hids. apply elem_of_seqZ. lia. }
    destruct (Z.ltb_spec (largest_rowid r rest) MAX_ROWID); [|lia].
    f_equal. lia.
Qed.

Lemma increasing_seqZ (n : Z) : increasing (seqZ 1 n).
Proof.
  intros i j a b Hij [-> _]%lookup_seqZ [-> _]%lookup_seqZ. lia.
Qed.

Lemma run_without_delete ops s (n : Z) :
  Forall (λ o, is_delete o = false) ops →
  stored_ids s = seqZ 1 n → 0 ≤ n →
  n + Z.of_nat (length ops) ≤ MAX_ROWID →
  ∃ s' n', run ops s (stored_ids s) = Some (s', stored_ids s')
           ∧ stored_ids s' = seqZ 1 n' ∧ 0 ≤ n'.
Proof.
  intros Hops. revert s n.
  induction Hops as [|o ops Ho _ IH]; intros s n Hids Hn Hlen.
  - by exists s, n.
  - rewrite length_cons, Nat2Z.inj_succ in Hlen.
    destruct o as [u|u d c a desc|i|u c l]; try done; simpl.
    + destruct (IH (login_user u s) n) as (s' & n' & Hrun & Hs');
        [unfold login_user; by destruct (decide _) | done | lia |].
      exists s', n'. split; [|done].
      replace (stored_ids s) with (stored_ids (login_user u s))
        by (unfold login_user; by destruct (decide _)).
      exact Hrun.
    + pose proof (new_rowid_seq (expenses s) n Hids ltac:(lia)) as Hi.
      rewrite (add_expense_rows _ _ _ _ _ _ _ Hi), Hi. simpl.
      set (s1 := mkStore _ _ _).
      assert (Hs1 : stored_ids s1 = stored_ids s ++ [n + 1])
        by (unfold stored_ids; simpl; by rewrite fmap_app).
      destruct (IH s1 (n + 1)) as (s' & n' & Hrun & Hs');
        [rewrite Hs1, Hids; symmetry; by apply seqZ_snoc | lia | lia |].
      exists s', n'. split; [|done]. by rewrite <- Hs1.
    + destruct (IH (set_budget u c l s) n) as (s' & n' & Hrun & Hs');
        [done | done | lia |].
      exists s', n'. by split.
Qed.

(** X8. As long as nothing is deleted the ids are handed out in order:
    after any sequence of logins, inserts and budget writes on the empty
    database, the ids assigned are 1, 2, 3, ... without gaps, each greater
    than all before it, and they are the ids stored. *)
Theorem ids_increase_without_delete ops :
  Forall (λ o, is_delete o = false) ops →
  Z.of_nat (length ops) < MAX_ROWID →
  ∃ s assigned,
    run ops empty_db [] = Some (s, assigned)
    ∧ assigned = stored_ids s
    ∧ assigned = seqZ 1 (Z.of_nat (length assigned))
    ∧ increasing assigned.
Proof.
  intros Hops Hlen.
  destruct (run_without_delete ops empty_db 0 Hops) as (s & n & Hrun & Hs & Hn);
    [done | lia | lia |].
  exists s, (stored_ids s). split; [exact Hrun|]. split; [done|].
  rewrite Hs at 1 2. rewrite length_seqZ, Z2Nat.id by lia.
  split; [done|]. rewrite Hs. apply increasing_seqZ.
Qed.
End ImportAndIds.

(* ===================================================================== *)
(** * Further properties of the pages *)
(* ===================================================================== *)

Section MainFacts.
Context {num : Type} `{Amount num}.
Implicit Types (s : Store num).

Lemma get_expenses_app_other (B u : string) s (news : list (expense num))
    (us : list string) (bs : list (budget_row num)) :
  B ≠ u → Forall (λ e, e_username e = u) news →
  get_expenses B (mkStore us (expenses s ++ news) bs) = get_expenses B s.
Proof.
  intros HB Hn. unfold get_expenses; simpl.
  rewrite filter_app, (filter_none _ news), app_nil_r; [done|].
  eapply Forall_impl; [exact Hn|]. simpl. intros e -> Hu. by apply HB.
Qed.

Lemma get_budget_set_other (B u category : string) (limit : num) s :
  B ≠ u →
  get_budget B (set_budget u category limit s) = get_budget B s.
Proof.
  intros HB. unfold get_budget, set_budget. cbn [budget]. f_equal.
  rewrite filter_app, (filter_cons_False _ _ []), app_nil_r
    by (simpl; intros Hu; by apply HB).
  rewrite list_filter_filter. apply list_filter_iff.
  intros b. split; [by intros []|]. intros Hb; split; [done|].
  unfold budget_key. intros [= Hu _]. apply HB. by rewrite <- Hb, Hu.
Qed.

Lemma login_user_tables (u : string) s :
  expenses (login_user u s) = expenses s
  ∧ budget (login_user u s) = budget s.
Proof. unfold login_user. by destruct (decide _). Qed.

(** What one run of [main] does to the tables. *)
Lemma main_writes (db : option (Store num)) (username : string)
    (req : request num) s' :
  main db username req = Some s' →
  users s' = users (login_user username (init_db db))
  ∧ (∃ news, expenses s' = expenses (init_db db) ++ news
             ∧ Forall (λ e, e_username e = username) news)
  ∧ ∀ B, B ≠ username → get_budget B s' = get_budget B (init_db db).
Proof.
  unfold main. set (s0 := init_db db).
  destruct (login_user_tables username s0) as [He Hb].
  assert (Hsame : ∀ B, get_budget B (login_user username s0) = get_budget B s0)
    by (intros B; unfold get_budget; by rewrite Hb).
  assert (Hread : Some (login_user username s0) = Some s' →
    users s' = users (login_user username s0)
    ∧ (∃ news, expenses s' = expenses s0 ++ news
               ∧ Forall (λ e, e_username e = username) news)
    ∧ ∀ B, B ≠ username → get_budget B s' = get_budget B s0).
  { intros [= <-]. split; [done|]. split; [|by intros B _].
    exists []. by rewrite app_nil_r, He. }
  destruct req as [|date category amount desc [|]|category limit [|]|
                   |[new_df|]]; try exact Hread.
  - intros (i & Hi & ->)%add_expense_inv. simpl. split; [done|].
    split; [|intros B _; unfold get_budget; simpl; by rewrite Hb].
    eexists. rewrite He. split; [done|]. by repeat constructor.
  - intros [= <-]. simpl. split; [done|].
    split; [exists []; by rewrite app_nil_r, He|].
    intros B HB. by rewrite get_budget_set_other, Hsame.
  - intros (news & Hn & Hf & _ & Hu & Hb')%import_csv_spec.
    split; [done|]. split.
    + exists news. rewrite Hn, He. split; [done|]. by eapply stored_as_owned.
    + intros B _. unfold get_budget. by rewrite Hb', Hb.
Qed.

(** X9. A run of [main] only adds: the user is registered, the expenses
    that were stored are still there, unchanged and in place, followed by
    the new ones, and the new ones all belong to the user of the run. For
    every other user the expenses and budgets read back as before. *)
Theorem main_only_adds_own_rows (db : option (Store num))
    (username : string) (req : request num) s' :
  main db username req = Some s' →
  username ∈ users s'
  ∧ expenses (init_db db) `prefix_of` expenses s'
  ∧ Forall (λ e, e_username e = username)
      (drop (length (expenses (init_db db))) (expenses s'))
  ∧ ∀ B, B ≠ username →
      get_expenses B s' = get_expenses B (init_db db)
      ∧ get_budget B s' = get_budget B (init_db db).
Proof.
  intros (Hu & (news & He & Hn) & Hb)%main_writes.
  split.
  { rewrite Hu. unfold login_user.
    destruct (decide (username ∈ users (init_db db))); simpl; [done|].
    apply elem_of_app. right; left. }
  split; [rewrite He; by apply prefix_app_r|].
  split; [by rewrite He, drop_app_length|].
  intros B HB. split; [|by apply Hb].
  unfold get_expenses. rewrite He, filter_app, (filter_none _ news), app_nil_r;
    [done|].
  eapply Forall_impl; [exact Hn|]. simpl. intros e -> Hu'. by apply HB.
Qed.

Section DashboardFacts.
Variable to_datetime : string → option Date.

(** The page reads the user's own expenses and budgets and nothing
    else. *)
Lemma dashboard_ext s1 s2 (username : string) (this_month : Z * Z) :
  get_expenses username s1 = get_expenses username s2 →
  get_budget username s1 = get_budget username s2 →
  dashboard to_datetime s1 username this_month
  = dashboard to_datetime s2 username this_month.
Proof. unfold dashboard. by intros -> ->. Qed.

(** X10. What another user does on any page of [main] does not change
    what the dashboard shows to a user. *)
Theorem dashboard_unchanged_by_other_users s s' (A B : string)
    (req : request num) (this_month : Z * Z) :
  A ≠ B →
  main (Some s) B req = Some s' →
  dashboard to_datetime s' A this_month
  = dashboard to_datetime s A this_month.
Proof.
  intros HAB (_ & (news & He & Hn) & Hb)%main_writes. simpl in *.
  apply dashboard_ext; [|by apply Hb].
  unfold get_expenses. rewrite He, filter_app, (filter_none _ news), app_nil_r;
    [done|].
  eapply Forall_impl; [exact Hn|]. simpl. intros e -> Hu. by apply HAB.
Qed.

(** X12. The alert loop visits the user's budget rows, each once and in
    the order [get_budget] returns them; a category without a budget row
    gets no alert. *)
Theorem alerts_follow_budget_rows s (username : string)
    (this_month : Z * Z) (m : Metrics num) :
  dashboard to_datetime s username this_month = Returns (Shown m) →
  (m_category ∘ fst) <$> alerts m = b_category <$> get_budget username s.
Proof.
  unfold dashboard.
  destruct (get_expenses username s) as [|e es]; [done|].
  destruct (to_datetime_col to_datetime (e :: es)) as [frame|]; [|done].
  intros [= <-]. simpl. unfold budget_alerts.
  destruct (get_budget username s) as [|b bs]; [done|].
  unfold merged. by rewrite <- !list_fmap_compose.
Qed.
End DashboardFacts.

Lemma string_leb_total : Total (λ a b : string, Is_true (String.leb a b)).
Proof.
  intros a b. destruct (String.leb_total a b) as [Hab|Hba];
    [left|right]; by apply Is_true_true.
Qed.

(** X13. The month's spending by category has one entry per category
    that occurs in the month, none for any other category (and none for
    expenses without a category), and lists the categories in increasing
    order. *)
Theorem spent_by_cat_labels (month_expenses : list (dated num)) :
  NoDup (spent_by_cat month_expenses).*1
  ∧ (∀ c, c ∈ (spent_by_cat month_expenses).*1
          ↔ ∃ r, r ∈ month_expenses ∧ d_category r = Some c)
  ∧ Sorted (λ a b : string, Is_true (String.leb a b))
      (spent_by_cat month_expenses).*1.
Proof.
  assert (Hl : (spent_by_cat month_expenses).*1
               = group_keys (omap d_category month_expenses)).
  { unfold spent_by_cat, groupby_sum. rewrite <- list_fmap_compose.
    apply list_fmap_id. }
  rewrite Hl. split; [apply group_keys_NoDup|]. split.
  - intros c. by rewrite elem_of_group_keys, list_elem_of_omap.
  - unfold group_keys.
    exact (@Sorted_merge_sort string _ _ string_leb_total _).
Qed.
End MainFacts.

Section Binary64Alerts.

(** Zero over anything is not above 0.8. *)
Lemma tier_of_zero_div (limit : spec_float) :
  tier_of (div (zero : spec_float) limit) = OK.
Proof. destruct limit as [[]|[]| |[] m e]; by vm_compute. Qed.

(** X14. A budget whose category has no expense in the month raises no
    alert: its spent amount is 0 and its tier is OK, whatever the
    limit. *)
Theorem unspent_budget_is_ok (to_datetime : string → option Date)
    (s : Store spec_float) (username : string) (this_month : Z * Z)
    (frame : list (dated spec_float)) (m : Metrics spec_float)
    (row : merged_row spec_float) (t : Tier) :
  dashboard to_datetime s username this_month = Returns (Shown m) →
  to_datetime_col to_datetime (get_expenses username s) = Some frame →
  (row, t) ∈ alerts m →
  Some (m_category row) ∉ d_category <$> month_filter this_month frame →
  m_amount row = zero ∧ t = OK.
Proof.
  unfold dashboard. intros Hd Hf Hin Hc.
  destruct (get_expenses username s) as [|e es]; [done|].
  rewrite Hf in Hd. injection Hd as <-. simpl in Hin.
  unfold budget_alerts in Hin.
  destruct (get_budget username s) as [|b0 bs]; [by apply elem_of_nil in Hin|].
  apply list_elem_of_fmap in Hin as (row' & [= -> ->] & Hrow).
  apply list_elem_of_fmap in Hrow as (b & -> & _). simpl in Hc.
  assert (Ha : from_option fillna0 zero
                 (assoc (b_category b)
                    (spent_by_cat (month_filter this_month frame)))
               = zero).
  { etransitivity;
      [apply (f_equal (from_option fillna0 zero));
       exact (assoc_groupby_sum d_category d_amount _ _)|].
    by repeat case_decide. }
  split; [exact Ha|].
  unfold status. cbn [m_amount m_monthly_limit]. rewrite Ha.
  apply tier_of_zero_div.
Qed.
End Binary64Alerts.

(* ===================================================================== *)
(** * Dates written by the form *)
(* ===================================================================== *)

Section FormDates.

Lemma digit_digit_char (k : Z) : 0 ≤ k ≤ 9 → digit (digit_char k) = Some k.
Proof.
  intros Hk.
  assert (k = 0 ∨ k = 1 ∨ k = 2 ∨ k = 3 ∨ k = 4 ∨ k = 5 ∨ k = 6 ∨ k = 7
          ∨ k = 8 ∨ k = 9) as Hcases by lia.
  repeat (destruct Hcases as [->|Hcases]; [by vm_compute|]).
  subst. by vm_compute.
Qed.

Lemma number_pad2 (n : Z) : 0 ≤ n ≤ 99 → number (pad2 n) 0 = Some n.
Proof.
  intros Hn. unfold pad2, number.
  rewrite !digit_digit_char by (Z.div_mod_to_equations; lia). simpl.
  f_equal. Z.div_mod_to_equations. lia.
Qed.

Lemma number_pad4 (n : Z) : 0 ≤ n ≤ 9999 → number (pad4 n) 0 = Some n.
Proof.
  intros Hn. unfold pad4, number.
  rewrite !digit_digit_char by (Z.div_mod_to_equations; lia). simpl.
  f_equal. Z.div_mod_to_equations. lia.
Qed.

Lemma days_in_month_le (y m : Z) : days_in_month y m ≤ 31.
Proof.
  unfold days_in_month.
  repeat match goal with |- context [if ?b then _ else _] => destruct b end;
    lia.
Qed.

Lemma iso_date_strftime_Ymd (d : Date) :
  picker_date d = true → iso_date (strftime_Ymd d) = Some d.
Proof.
  destruct d as [y m dd]. unfold picker_date; simpl.
  intros Hp. repeat (apply andb_prop in Hp as [Hp ?]).
  pose proof (days_in_month_le y m).
  unfold iso_date, strftime_Ymd.
  rewrite String.list_ascii_of_string_of_list_ascii.
  unfold pad4 at 1, pad2 at 1 2. cbn [app year month day]. cbv iota beta.
  fold (pad4 y) (pad2 m) (pad2 dd).
  rewrite number_pad4, number_pad2, number_pad2 by lia.
  change (("-" =? "-")%char) with true. cbn [andb mbind option_bind].
  assert (Hok : (1 <=? y) && (1 <=? m) && (m <=? 12) && (1 <=? dd)
                && (dd <=? days_in_month y m) = true).
  { repeat (apply andb_true_intro; split); try done. lia. }
  by rewrite Hok.
Qed.

(** X15. The text that the "Add Expense" form stores for a date of the
    date picker, [date.strftime('%Y-%m-%d')], has ten characters and
    reads back as that date. *)
Theorem form_date_reads_back (d : Date) :
  picker_date d = true →
  String.length (strftime_Ymd d) = 10%nat
  ∧ iso_date (strftime_Ymd d) = Some d.
Proof.
  intros Hp. split; [|by apply iso_date_strftime_Ymd].
  unfold strftime_Ymd, pad4, pad2. reflexivity.
Qed.

Lemma form_date_reads_back_witness :
  picker_date (mkDate 2024 2 29) = true
  ∧ String.length (strftime_Ymd (mkDate 2024 2 29)) = 10%nat
  ∧ iso_date (strftime_Ymd (mkDate 2024 2 29)) = Some (mkDate 2024 2 29).
Proof.
  assert (Hp : picker_date (mkDate 2024 2 29) = true) by reflexivity.
  split; [exact Hp|]. exact (form_date_reads_back (mkDate 2024 2 29) Hp).
Defined.
End FormDates.

Section FormSessions.
Context {num : Type} `{Amount num}.

(** A run fed by the forms keeps the expense table made of rows whose
    date the picker wrote and whose category is one of the select box. *)
Lemma main_keeps_form_rows (db : option (Store num)) (username : string)
    (req : request num) (s' : Store num) :
  from_forms (username, req) = true →
  Forall (λ e, ∃ d c, picker_date d = true ∧ e_date e = strftime_Ymd d
                      ∧ e_category e = Some (category_name c))
    (expenses (init_db db)) →
  main db username req = Some s' →
  Forall (λ e, ∃ d c, picker_date d = true ∧ e_date e = strftime_Ymd d
                      ∧ e_category e = Some (category_name c))
    (expenses s').
Proof.
  intros Hreq Hrows. unfold main.
  destruct (login_user_tables username (init_db db)) as [He _].
  destruct req as [|date category amount desc [|]|category limit [|]|
                   |[new_df|]]; try done;
    try (intros [= <-]; simpl; by rewrite ?He).
  intros (i & Hi & ->)%add_expense_inv. simpl. rewrite He.
  apply Forall_app. split; [done|].
  constructor; [|done]. by exists date, category.
Qed.

Lemma session_keeps_form_rows (runs : list (string * request num))
    (db : option (Store num)) (s : Store num) :
  Forall (λ run, from_forms run = true) runs →
  Forall (λ e, ∃ d c, picker_date d = true ∧ e_date e = strftime_Ymd d
                      ∧ e_category e = Some (category_name c))
    (expenses (init_db db)) →
  session runs db = Some s →
  Forall (λ e, ∃ d c, picker_date d = true ∧ e_date e = strftime_Ymd d
                      ∧ e_category e = Some (category_name c))
    (expenses s).
Proof.
  intros Hruns. revert db.
  induction Hruns as [|[u req] runs Hrun _ IH]; intros db Hrows; simpl.
  - by intros [= <-].
  - destruct (main db u req) as [s1|] eqn:Hm; [|done]. simpl.
    apply IH. simpl. by eapply main_keeps_form_rows.
Qed.

(** X16. A database filled through the forms alone never makes the
    dashboard fail: after any runs of [main] without an uploaded file,
    started on no database, every stored expense has one of the five
    categories, and with a [pd.to_datetime] that reads the dates the form
    writes, the dashboard of no user and no month raises. *)
Theorem form_sessions_always_parse (to_datetime : string → option Date)
    (runs : list (string * request num)) (s : Store num) :
  (∀ d, picker_date d = true → is_Some (to_datetime (strftime_Ymd d))) →
  Forall (λ run, from_forms run = true) runs →
  session runs None = Some s →
  Forall (λ e, ∃ c, e_category e = Some (category_name c)) (expenses s)
  ∧ ∀ username this_month e,
      dashboard to_datetime s username this_month ≠ Raises e.
Proof.
  intros Hparse Hruns Hs.
  pose proof (session_keeps_form_rows runs None s Hruns
                ltac:(by constructor) Hs) as Hrows.
  split.
  { eapply Forall_impl; [exact Hrows|]. simpl.
    intros e (d & c & _ & _ & Hc). by exists c. }
  intros username this_month e. unfold dashboard.
  destruct (get_expenses username s) as [|r rs] eqn:Hg; [done|].
  destruct (to_datetime_col to_datetime (r :: rs)) as [frame|] eqn:Hf;
    [done|].
  exfalso. unfold to_datetime_col in Hf.
  apply mapM_None, Exists_exists in Hf as (r' & Hr' & Hn).
  assert (Hin : r' ∈ expenses s).
  { assert (r' ∈ get_expenses username s) as Hin by (by rewrite Hg).
    by apply list_elem_of_filter in Hin as [_ ?]. }
  rewrite Forall_forall in Hrows.
  destruct (Hrows r' Hin) as (d & c & Hd & Hdate & _).
  destruct (Hparse d Hd) as [d' Hd']. rewrite Hdate, Hd' in Hn. done.
Qed.

End FormSessions.

Lemma form_sessions_always_parse_witness :
  let runs := [("asha", AddExpense (mkDate 2024 5 1) Food (Binary64.lit 1 1)
                          "tea" true);
               ("bina", Budget Transport (Binary64.lit 50 0) true);
               ("bina", AddExpense (mkDate 2024 2 29) Other
                          (Binary64.lit 2 1) "" true);
               ("asha", Dashboard)] in
  Forall (λ run, from_forms run = true) runs
  ∧ ∃ s : Store spec_float,
      session runs None = Some s
      ∧ Forall (λ e, ∃ c, e_category e = Some (category_name c)) (expenses s)
      ∧ ∀ username this_month e,
          dashboard iso_date s username this_month ≠ Raises e.
Proof.
  intros runs.
  assert (Hruns : Forall (λ run, from_forms run = true) runs)
    by (repeat constructor).
  split; [exact Hruns|]. eexists. split; [vm_compute; reflexivity|].
  apply (form_sessions_always_parse iso_date runs).
  - intros d Hd. rewrite (iso_date_strftime_Ymd d Hd). by eexists.
  - exact Hruns.
  - vm_compute; reflexivity.
Defined.


(* ===================================================================== *)
(** * The further properties on the sample database *)
(* ===================================================================== *)

Lemma run_keeps_primary_keys_witness :
  primary_keys (empty_db (num:=spec_float))
  ∧ run (sample_ops Binary64.lit) empty_db [] = Some (sample64, [1; 2; 3])
  ∧ primary_keys sample64.
Proof.
  assert (Hk : primary_keys (empty_db (num:=spec_float)))
    by (repeat split; apply NoDup_nil_2).
  assert (Hr : run (sample_ops Binary64.lit) empty_db []
               = Some (sample64, [1; 2; 3])) by (vm_compute; reflexivity).
  split; [exact Hk|]. split; [exact Hr|].
  exact (run_keeps_primary_keys _ _ _ _ _ Hk Hr).
Defined.

Lemma add_then_get_witness :
  ∃ s',
    add_expense "asha" "2024-05-03" (Some "Health") (Binary64.lit 125 1) ""
      sample64
    = Some s'
    ∧ ∃ i, (i ∉ stored_ids sample64)
           ∧ stored_ids s' = stored_ids sample64 ++ [i]
           ∧ get_expenses "asha" s'
             = get_expenses "asha" sample64
                 ++ [mkExpense i "asha" "2024-05-03" (Some "Health")
                       (Binary64.lit 125 1) ""].
Proof.
  eexists. split; [vm_compute; reflexivity|].
  apply (add_then_get "asha" "2024-05-03" (Some "Health")
           (Binary64.lit 125 1) "" sample64).
  vm_compute; reflexivity.
Defined.

Lemma add_then_delete_witness :
  ∃ s',
    add_expense "bina" "2024-05-03" (Some "Health") (Binary64.lit 125 1) ""
      sample64
    = Some s'
    ∧ ∃ i, stored_ids s' = stored_ids sample64 ++ [i]
           ∧ delete_expense i s' = sample64.
Proof.
  eexists. split; [vm_compute; reflexivity|].
  apply (add_then_delete "bina" "2024-05-03" (Some "Health")
           (Binary64.lit 125 1) "" sample64).
  vm_compute; reflexivity.
Defined.

Lemma import_appends_own_rows_witness :
  let rows := [mkCsv "2024-05-01" (Some "Food") (Binary64.lit 1 1) "tea";
               mkCsv "not-a-date" (Some "Rent") (Binary64.of_Z (-5)) ""] in
  ∃ s',
    import_csv "asha" rows sample64 = Some s'
    ∧ ∃ news,
        expenses s' = expenses sample64 ++ news
        ∧ Forall2 (stored_as "asha") rows news
        ∧ (∀ e j, e ∈ news → j ∈ stored_ids sample64 → j < e_id e)
        ∧ length (get_expenses "asha" s')
          = (length (get_expenses "asha" sample64) + length rows)%nat
        ∧ users s' = users sample64 ∧ budget s' = budget sample64.
Proof.
  intros rows. eexists. split; [vm_compute; reflexivity|].
  apply (import_appends_own_rows "asha" rows sample64).
  vm_compute; reflexivity.
Defined.

Lemma ids_increase_without_delete_witness :
  let ops := sample_ops (num:=spec_float) Binary64.lit in
  Forall (λ o, is_delete o = false) ops
  ∧ Z.of_nat (length ops) < MAX_ROWID
  ∧ ∃ s assigned,
      run ops empty_db [] = Some (s, assigned)
      ∧ assigned = stored_ids s
      ∧ assigned = seqZ 1 (Z.of_nat (length assigned))
      ∧ increasing assigned.
Proof.
  intros ops.
  assert (Hops : Forall (λ o, is_delete o = false) ops)
    by (repeat constructor).
  assert (Hlen : Z.of_nat (length ops) < MAX_ROWID)
    by (vm_compute; reflexivity).
  split; [exact Hops|]. split; [exact Hlen|].
  exact (ids_increase_without_delete ops Hops Hlen).
Defined.

Lemma main_only_adds_own_rows_witness :
  let req := ImportExport
               (Some [mkCsv "2024-05-01" (Some "Food") (Binary64.lit 1 1)
                        "tea"]) in
  ∃ s',
    main (Some sample64) "bina" req = Some s'
    ∧ "bina" ∈ users s'
    ∧ expenses sample64 `prefix_of` expenses s'
    ∧ Forall (λ e, e_username e = "bina")
        (drop (length (expenses sample64)) (expenses s'))
    ∧ ∀ B, B ≠ "bina" →
        get_expenses B s' = get_expenses B sample64
        ∧ get_budget B s' = get_budget B sample64.
Proof.
  intros req. eexists. split; [vm_compute; reflexivity|].
  apply (main_only_adds_own_rows (Some sample64) "bina" req).
  vm_compute; reflexivity.
Defined.

Lemma dashboard_unchanged_by_other_users_witness :
  let req := AddExpense (mkDate 2024 5 2) Food (Binary64.lit 999 0)
               "feast" true in
  "asha" ≠ "bina"
  ∧ ∃ s',
      main (Some sample64) "bina" req = Some s'
      ∧ dashboard iso_date s' "asha" (2024, 5)
        = dashboard iso_date sample64 "asha" (2024, 5).
Proof.
  intros req.
  assert (Hne : "asha" ≠ "bina") by discriminate.
  split; [exact Hne|]. eexists. split; [vm_compute; reflexivity|].
  apply (dashboard_unchanged_by_other_users iso_date sample64 _ "asha" "bina"
           req (2024, 5) Hne).
  vm_compute; reflexivity.
Defined.

Lemma alerts_follow_budget_rows_witness :
  ∃ m,
    dashboard iso_date sample64 "asha" (2024, 5) = Returns (Shown m)
    ∧ (m_category ∘ fst) <$> alerts m
      = b_category <$> get_budget "asha" sample64.
Proof.
  eexists. split; [vm_compute; reflexivity|].
  apply (alerts_follow_budget_rows iso_date sample64 "asha" (2024, 5)).
  vm_compute; reflexivity.
Defined.

Lemma unspent_budget_is_ok_witness :
  let row := mkMerged "Food" (Binary64.lit 1 1) (S754_zero false) in
  ∃ m frame,
    dashboard iso_date sample64 "asha" (2024, 6) = Returns (Shown m)
    ∧ to_datetime_col iso_date (get_expenses "asha" sample64) = Some frame
    ∧ (row, OK) ∈ alerts m
    ∧ (Some (m_category row) ∉ d_category <$> month_filter (2024, 6) frame)
    ∧ m_amount row = zero ∧ OK = OK.
Proof.
  intros row. eexists. eexists.
  assert (Hd : dashboard iso_date sample64 "asha" (2024, 6)
               = Returns (Shown (mkMetrics (S754_zero false) S754_nan
                                   [(row, OK)])))
    by (vm_compute; reflexivity).
  assert (Hf : to_datetime_col iso_date (get_expenses "asha" sample64)
               = Some (default [] (to_datetime_col iso_date
                                     (get_expenses "asha" sample64))))
    by (vm_compute; reflexivity).
  assert (Hin : (row, OK) ∈ alerts (mkMetrics (S754_zero false) S754_nan
                                      [(row, OK)])) by (simpl; left).
  assert (Hc : Some (m_category row)
               ∉ d_category <$> month_filter (2024, 6)
                   (default [] (to_datetime_col iso_date
                                  (get_expenses "asha" sample64)))).
  { vm_compute. intros Hx. by apply elem_of_nil in Hx. }
  split; [exact Hd|]. split; [exact Hf|]. split; [exact Hin|].
  split; [exact Hc|].
  exact (unspent_budget_is_ok iso_date sample64 "asha" (2024, 6) _ _ row OK
           Hd Hf Hin Hc).
Defined.

(* ===================================================================== *)
(** * How a new expense moves the dashboard *)
(* ===================================================================== *)

Section NewExpense.
Context {num : Type} `{Amount num}.
Variable to_datetime : string → option Date.

Lemma to_datetime_col_snoc (rows : list (expense num)) (r : expense num)
    (frame : list (dated num)) (dt : Date) :
  to_datetime_col to_datetime rows = Some frame →
  to_datetime (e_date r) = Some dt →
  to_datetime_col to_datetime (rows ++ [r]) = Some (frame ++ [(dt, r)]).
Proof.
  unfold to_datetime_col. revert frame.
  induction rows as [|r0 rows IH]; intros frame; simpl.
  - intros [= <-] ->. done.
  - destruct (to_datetime (e_date r0)) as [d0|]; [|done]. simpl.
    destruct (mapM _ rows) as [fr|] eqn:Hm; [|done]. simpl.
    intros [= <-] Hr. by rewrite (IH fr eq_refl Hr).
Qed.

Lemma dashboard_unfold (s : Store num) (username : string)
    (this_month : Z * Z) :
  dashboard to_datetime s username this_month
  = match get_expenses username s with
    | [] => Returns NoData
    | _ :: _ =>
        match to_datetime_col to_datetime (get_expenses username s) with
        | None => Raises ValueError
        | Some frame =>
            Returns (Shown
              (mkMetrics (total_spent (month_filter this_month frame))
                 (daily_average (month_filter this_month frame))
                 (budget_alerts (get_budget username s)
                    (month_filter this_month frame))))
        end
    end.
Proof. unfold dashboard. by destruct (get_expenses username s). Qed.

(** The user's frame after one [add_expense] for the user: the old rows,
    then the new row. *)
Lemma frame_after_add (username date description : string)
    (category : option string) (amount : num) (s s' : Store num)
    (frame : list (dated num)) (dt : Date) :
  add_expense username date category amount description s = Some s' →
  to_datetime_col to_datetime (get_expenses username s) = Some frame →
  to_datetime date = Some dt →
  get_budget username s' = get_budget username s
  ∧ ∃ i,
      get_expenses username s'
      = get_expenses username s
          ++ [mkExpense i username date category amount description]
      ∧ to_datetime_col to_datetime (get_expenses username s')
        = Some (frame
                  ++ [(dt, mkExpense i username date category amount
                             description)]).
Proof.
  intros (i & Hi & ->)%add_expense_inv Hf Hd. split; [done|]. exists i.
  assert (Hg : get_expenses username
                 (mkStore (users s)
                    (expenses s
                       ++ [mkExpense i username date category amount
                             description])
                    (budget s))
               = get_expenses username s
                   ++ [mkExpense i username date category amount
                         description]).
  { unfold get_expenses; simpl.
    by rewrite filter_app, (filter_cons_True _ _ []). }
  split; [exact Hg|]. rewrite Hg. by apply to_datetime_col_snoc.
Qed.

(** X17. An expense dated in another month leaves the dashboard of this
    month as it was, for a user who already had expenses. *)
Theorem other_month_expense_changes_nothing
    (username date description : string) (category : option string)
    (amount : num) (s s' : Store num) (dt : Date) (this_month : Z * Z) :
  add_expense username date category amount description s = Some s' →
  get_expenses username s ≠ [] →
  to_datetime date = Some dt →
  strftime_Ym dt ≠ this_month →
  dashboard to_datetime s' username this_month
  = dashboard to_datetime s username this_month.
Proof.
  intros Ha Hne Hd Hm. rewrite !dashboard_unfold.
  destruct (to_datetime_col to_datetime (get_expenses username s))
    as [frame|] eqn:Hf.
  - destruct (frame_after_add _ _ _ _ _ _ _ _ _ Ha Hf Hd)
      as (Hb & i & Hg & Hf').
    rewrite Hf', Hb, Hg.
    destruct (get_expenses username s) as [|r rs]; [done|]. simpl.
    unfold month_filter. rewrite filter_app, (filter_cons_False _ _ []),
      app_nil_r by done. done.
  - apply add_expense_inv in Ha as (i & Hi & ->).
    assert (Hg : get_expenses username
                   (mkStore (users s)
                      (expenses s
                         ++ [mkExpense i username date category amount
                               description])
                      (budget s))
                 = get_expenses username s
                     ++ [mkExpense i username date category amount
                           description]).
    { unfold get_expenses; simpl.
      by rewrite filter_app, (filter_cons_True _ _ []). }
    rewrite Hg.
    assert (Hn : to_datetime_col to_datetime
                   (get_expenses username s
                      ++ [mkExpense i username date category amount
                            description]) = None).
    { unfold to_datetime_col in *. apply mapM_None, Exists_app. left.
      by apply mapM_None. }
    rewrite Hn. destruct (get_expenses username s) as [|r rs]; done.
Qed.

(** Fewer than 8 values are added in row order. *)
Lemma np_sum_in_order (a : list num) :
  (length a < 8)%nat →
  np_sum a = match a with [] => zero | x :: a' => foldl add x a' end.
Proof.
  intros Hn. unfold np_sum. generalize (length a) at 1. intros fuel.
  destruct fuel; cbn [pairwise_sum];
    by destruct (Nat.ltb_spec (length a) 8); [|lia].
Qed.

(** X18. While the month holds at most 7 expenses with the new one, which
    [Series.sum()] adds in row order, an expense dated in this month
    raises the month's total by one addition: the new total is the old
    total plus the amount (0 for a missing amount), and the amount itself
    when it is the first expense of the month. *)
Theorem this_month_expense_adds_to_total
    (username date description : string) (category : option string)
    (amount : num) (s s' : Store num) (frame : list (dated num)) (dt : Date)
    (this_month : Z * Z) :
  add_expense username date category amount description s = Some s' →
  to_datetime_col to_datetime (get_expenses username s) = Some frame →
  to_datetime date = Some dt →
  strftime_Ym dt = this_month →
  (length (month_filter this_month frame) < 7)%nat →
  ∃ frame',
    to_datetime_col to_datetime (get_expenses username s') = Some frame'
    ∧ total_spent (month_filter this_month frame')
      = match month_filter this_month frame with
        | [] => fillna0 amount
        | _ :: _ =>
            add (total_spent (month_filter this_month frame))
              (fillna0 amount)
        end.
Proof.
  intros Ha Hf Hd Hm Hlen.
  destruct (frame_after_add _ _ _ _ _ _ _ _ _ Ha Hf Hd)
    as (_ & i & _ & Hf').
  eexists. split; [exact Hf'|].
  unfold month_filter in *. unfold total_spent, nansum.
  rewrite filter_app, (filter_cons_True _ _ []) by done.
  rewrite !fmap_app.
  rewrite !np_sum_in_order
    by (rewrite ?length_app, !length_fmap; simpl; lia).
  destruct (filter _ frame) as [|r rs]; [done|].
  rewrite !fmap_cons. cbn [app]. by rewrite foldl_app.
Qed.
End NewExpense.

Lemma other_month_expense_changes_nothing_witness :
  ∃ s',
    add_expense "asha" "2024-06-01" (Some "Food") (Binary64.lit 30 0) ""
      sample64
    = Some s'
    ∧ get_expenses "asha" sample64 ≠ []
    ∧ iso_date "2024-06-01" = Some (mkDate 2024 6 1)
    ∧ strftime_Ym (mkDate 2024 6 1) ≠ (2024, 5)
    ∧ dashboard iso_date s' "asha" (2024, 5)
      = dashboard iso_date sample64 "asha" (2024, 5).
Proof.
  eexists.
  assert (Hne : get_expenses "asha" sample64 ≠ [])
    by (vm_compute; discriminate).
  assert (Hd : iso_date "2024-06-01" = Some (mkDate 2024 6 1))
    by (vm_compute; reflexivity).
  assert (Hm : strftime_Ym (mkDate 2024 6 1) ≠ (2024, 5))
    by (vm_compute; discriminate).
  split; [vm_compute; reflexivity|].
  split; [exact Hne|]. split; [exact Hd|]. split; [exact Hm|].
  apply (other_month_expense_changes_nothing iso_date "asha" "2024-06-01"
           "" (Some "Food") (Binary64.lit 30 0) sample64 _ (mkDate 2024 6 1)
           (2024, 5)); [vm_compute; reflexivity|exact Hne|exact Hd|exact Hm].
Defined.

Lemma this_month_expense_adds_to_total_witness :
  let frame :=
    default [] (to_datetime_col iso_date (get_expenses "asha" sample64)) in
  ∃ s',
    add_expense "asha" "2024-05-09" (Some "Food") (Binary64.lit 30 0) ""
      sample64
    = Some s'
    ∧ length (month_filter (2024, 5) frame) = 3%nat
    ∧ ∃ frame',
        to_datetime_col iso_date (get_expenses "asha" s') = Some frame'
        ∧ total_spent (month_filter (2024, 5) frame')
          = match month_filter (2024, 5) frame with
            | [] => fillna0 (Binary64.lit 30 0)
            | _ :: _ =>
                add (total_spent (month_filter (2024, 5) frame))
                  (fillna0 (Binary64.lit 30 0))
            end.
Proof.
  intros frame. eexists. split; [vm_compute; reflexivity|].
  assert (Hlen : length (month_filter (2024, 5) frame) = 3%nat)
    by (vm_compute; reflexivity).
  split; [exact Hlen|].
  apply (this_month_expense_adds_to_total iso_date "asha" "2024-05-09"
           "" (Some "Food") (Binary64.lit 30 0) sample64 _ frame
           (mkDate 2024 5 9) (2024, 5));
    [vm_compute; reflexivity | vm_compute; reflexivity
    | vm_compute; reflexivity | vm_compute; reflexivity
    | rewrite Hlen; lia].
Defined.

(* ===================================================================== *)
(** * Tiers follow the status *)
(* ===================================================================== *)

Section TierOrder.

(** Below, then at most: below. *)
Lemma SFltb_leb_trans (x y z : spec_float) :
  SFltb x y = true → SFleb y z = true → SFltb x z = true.
Proof.
  unfold SFltb, SFleb.
  destruct x as [[]|[]| |[] mx ex], y as [[]|[]| |[] my ey],
    z as [[]|[]| |[] mz ez]; simpl; try done;
  change (Pos.compare_cont Eq) with Pos.compare;
  repeat match goal with
  | |- context [(?a ?= ?b)%Z] => destruct (Z.compare_spec a b); simpl; try done
  | |- context [(?a ?= ?b)%positive] =>
      destruct (Pos.compare_spec a b); simpl; try done
  end; try lia.
Qed.

(** X19. A larger status never gets a milder alert: if one status is at
    most another, then OVER for the first gives OVER for the second, and
    WARNING for the first gives WARNING or OVER for the second. *)
Theorem tier_monotone (r r' : spec_float) :
  leb r r' = true →
  (tier_of r = OVER → tier_of r' = OVER)
  ∧ (tier_of r = WARNING → tier_of r' ≠ OK).
Proof.
  intros Hle.
  assert (H1 : ltb one r = true → ltb one r' = true)
    by (intros Hr; exact (SFltb_leb_trans one r r' Hr Hle)).
  assert (H8 : ltb point8 r = true → ltb point8 r' = true)
    by (intros Hr; exact (SFltb_leb_trans point8 r r' Hr Hle)).
  unfold tier_of. revert H1 H8.
  destruct (ltb one r), (ltb point8 r), (ltb one r'), (ltb point8 r');
    intros H1 H8; split; intros; try done;
    try (by specialize (H1 eq_refl)); by specialize (H8 eq_refl).
Qed.

Lemma tier_monotone_witness :
  leb (Binary64.lit 9 1) (Binary64.lit 12 1) = true
  ∧ tier_of (Binary64.lit 9 1) = WARNING
  ∧ tier_of (Binary64.lit 12 1) = OVER
  ∧ (tier_of (Binary64.lit 9 1) = OVER → tier_of (Binary64.lit 12 1) = OVER)
  ∧ (tier_of (Binary64.lit 9 1) = WARNING
     → tier_of (Binary64.lit 12 1) ≠ OK).
Proof.
  assert (Hle : leb (Binary64.lit 9 1) (Binary64.lit 12 1) = true)
    by (vm_compute; reflexivity).
  split; [exact Hle|]. split; [vm_compute; reflexivity|].
  split; [vm_compute; reflexivity|].
  exact (tier_monotone (Binary64.lit 9 1) (Binary64.lit 12 1) Hle).
Defined.
End TierOrder.
